(** * MVR-xchange session layer of blenderDMX: [mvrx_protocol.py]

    A shallow embedding of the two process-wide singletons
    [DMX_MVR_X_Client] and [DMX_MVR_X_Server] and of the static methods
    that drive them.  Python's module-level state (the two [_instance]
    class attributes, the add-on preferences, the scene flag
    [dmx.mvrx_enabled]) is threaded explicitly through a [World]; every
    interaction with code outside the module (stdout, [DMX_Log], the
    transport objects of [dmx.mvrxchange], the host object
    [bpy.context.scene.dmx], [time.sleep]) is appended to a trace of
    events.  Exceptions are results of the monad. *)

From Stdlib Require Import ZArith String Ascii List Bool Lia.
From stdpp Require Import base option gmap strings list fin_maps.

Open Scope string_scope.
Open Scope Z_scope.
Open Scope list_scope.

Set Warnings "-register-all".

(** ** Python values carried by messages *)

(** A decoded JSON message is a Python [dict] with string keys; its values
    are the usual JSON values. *)
Inductive PyVal : Type :=
| VNone
| VBool (b : bool)
| VInt (z : Z)
| VStr (s : string)
| VList (l : list PyVal)
| VDict (d : gmap string PyVal).

Abbreviation Message := (gmap string PyVal).

(** [key in data] *)
Definition has_key (k : string) (data : Message) : bool :=
  match data !! k with Some _ => true | None => false end.

(** [data.get(key, "")] *)
Definition get_default (k : string) (data : Message) : PyVal :=
  match data !! k with Some v => v | None => VStr "" end.

(** [v == "literal"] for a string literal: only a [str] with the same
    characters compares equal. *)
Definition py_eq_str (v : PyVal) (s : string) : bool :=
  match v with VStr t => bool_decide (t = s) | _ => false end.

(** [v is False]: identity with the [False] singleton. *)
Definition py_is_False (v : PyVal) : bool :=
  match v with VBool false => true | _ => false end.

(** ** Station identifiers: [uuid.uuid4()] and [str()] of it *)

(** The module asks Python's [uuid] library for a fresh identifier.  The
    library draws sixteen random bytes, reads them as a 128-bit integer
    and then forces the variant and version fields:
    [int &= ~(0xc000 << 48); int |= 0x8000 << 48;
     int &= ~(0xf000 << 64); int |= version << 76] with [version = 4].
    The random integer is the argument [r]. *)
Definition uuid4 (r : Z) : Z :=
  let i1 := Z.land r (Z.lnot (Z.shiftl 0xc000 48)) in
  let i2 := Z.lor i1 (Z.shiftl 0x8000 48) in
  let i3 := Z.land i2 (Z.lnot (Z.shiftl 0xf000 64)) in
  Z.lor i3 (Z.shiftl 4 76).

Definition hex_digit (n : Z) : ascii :=
  match n with
  | 0 => "0" | 1 => "1" | 2 => "2" | 3 => "3" | 4 => "4" | 5 => "5"
  | 6 => "6" | 7 => "7" | 8 => "8" | 9 => "9" | 10 => "a" | 11 => "b"
  | 12 => "c" | 13 => "d" | 14 => "e" | _ => "f"
  end%char.

(** ['%0nx' % u]: the [n] low hexadecimal digits of [u], most significant
    first (for [0 <= u < 16^n] this is the whole zero-padded number). *)
Fixpoint hex_digits (n : nat) (u : Z) : string :=
  match n with
  | O => ""
  | S k => String (hex_digit (Z.land (Z.shiftr u (4 * Z.of_nat k)) 15))
                  (hex_digits k u)
  end.

(** [UUID.__str__]: [hex = '%032x' % self.int] cut as 8-4-4-4-12. *)
Definition str_uuid (u : Z) : string :=
  let hex := hex_digits 32 u in
  substring 0 8 hex +:+ "-" +:+ substring 8 4 hex +:+ "-" +:+
  substring 12 4 hex +:+ "-" +:+ substring 16 4 hex +:+ "-" +:+
  substring 20 12 hex.

(** The reserved "unset" identifier. *)
Definition nil_uuid : string := "00000000-0000-0000-0000-000000000000".

(** ** Objects the module handles *)

(** The peer picked in the user interface: the only attributes the module
    reads from it are [ip_address] and [port]. *)
Record Peer : Type := { ip_address : string; port : Z }.

(** Modelled from the spec: the commit record handed to [request_file] is
    declared outside this module; the spec gives its fields as
    [{commit_uuid, file_uuid, station_uuid, timestamp, comment}]. *)
Record Commit : Type := {
  commit_uuid : string;
  file_uuid : string;
  station_uuid : string;
  timestamp : Z;
  comment : string
}.

(** The second argument of the server callback; [data.addr] is unpacked as
    [addr, port]. *)
Record ConnData : Type := { addr : string * Z }.

(** Exceptions.  [AttributeError t a] is Python's
    "'t' object has no attribute 'a'"; [External] stands for whatever an
    object outside this module raised. *)
Inductive Exn : Type :=
| AttributeError (type_name attr : string)
| External (what : string).

(** Methods of a transport object of [mvrxchange_client.client]. *)
Inductive ClientMethod : Type :=
| start
| join_mvr
| leave_mvr
| stop
| transport_request_file (commit : Commit) (path : string).

(** Methods of the listener object of [mvrxchange_server.server]. *)
Inductive ServerMethod : Type :=
| listener_start
| listener_stop
| listener_get_port
| listener_request_file (commit : Commit) (path : string).

(** Methods of the host object [bpy.context.scene.dmx], with the arguments
    the module passes. *)
Inductive HostCall : Type :=
| createMVR_Commits (commits : PyVal) (uuid : PyVal)
| updateMVR_Client (provider : PyVal) (station_uuid : PyVal)
| createMVR_Client (station_name : PyVal) (station_uuid : PyVal)
    (service_name : PyVal) (ip_address : string) (port : Z) (provider : PyVal)
| fetched_mvr_downloaded_file (path : PyVal).

(** Every call that leaves the module.  Objects are named by the number of
    the call that constructed them. *)
Inductive Call : Type :=
| ClientNew (ip : string) (port : Z) (timeout : Z) (application_uuid : string)
| ClientCall (obj : nat) (m : ClientMethod)
| ServerNew (uuid : string)
| ServerCall (obj : nat) (m : ServerMethod)
| Host (h : HostCall).

Inductive Shown : Type :=
| SStr (s : string)
| SVal (v : PyVal)
| SInt (z : Z)
| SConn (c : ConnData)
| SExn (e : Exn).

(** What an observer of the process sees, oldest first. *)
Inductive Event : Type :=
| EPrint (args : list Shown)          (* print(...) *)
| ELogInfo (msg : string)             (* DMX_Log.log.info *)
| ELogError (msg : string)            (* DMX_Log.log.error *)
| ESleep (milliseconds : Z)           (* time.sleep *)
| ECall (c : Call) (raised : option Exn).

(** What the module cannot decide by itself: the random bytes behind
    [uuid4()], whether the [n]-th call out of the module raises, and the
    port a listener reports. *)
Record Env : Type := {
  urandom : nat -> Z;
  outcome : nat -> Call -> option Exn;
  listening_port : nat -> Z
}.

(** [self.client], [self.selected_client], [self.application_uuid] of a
    [DMX_MVR_X_Client]; ([self._dmx] is the host object, of which there is
    one). *)
Record ClientInstance : Type := {
  client : option nat;
  selected_client : option Peer;
  application_uuid : string
}.

(** [self.server] and [self.application_uuid] of a [DMX_MVR_X_Server]. *)
Record ServerInstance : Type := {
  server : option nat;
  server_application_uuid : string
}.

Record World : Type := {
  prefs : gmap string string;     (* the add-on preferences *)
  draws : nat;                    (* uuid4() calls so far *)
  steps : nat;                    (* calls out of the module so far *)
  client_instance : option ClientInstance;  (* DMX_MVR_X_Client._instance *)
  server_instance : option ServerInstance;  (* DMX_MVR_X_Server._instance *)
  mvrx_enabled : bool;            (* bpy.context.scene.dmx.mvrx_enabled,
                                     a plain flag as far as this module goes *)
  trace : list Event
}.

Definition set_draws (n : nat) (w : World) : World :=
  {| prefs := prefs w; draws := n; steps := steps w;
     client_instance := client_instance w;
     server_instance := server_instance w;
     mvrx_enabled := mvrx_enabled w; trace := trace w |}.

Definition set_steps (n : nat) (w : World) : World :=
  {| prefs := prefs w; draws := draws w; steps := n;
     client_instance := client_instance w;
     server_instance := server_instance w;
     mvrx_enabled := mvrx_enabled w; trace := trace w |}.

Definition set_client_instance (i : option ClientInstance) (w : World) : World :=
  {| prefs := prefs w; draws := draws w; steps := steps w;
     client_instance := i;
     server_instance := server_instance w;
     mvrx_enabled := mvrx_enabled w; trace := trace w |}.

Definition set_server_instance (i : option ServerInstance) (w : World) : World :=
  {| prefs := prefs w; draws := draws w; steps := steps w;
     client_instance := client_instance w;
     server_instance := i;
     mvrx_enabled := mvrx_enabled w; trace := trace w |}.

Definition set_mvrx_enabled (b : bool) (w : World) : World :=
  {| prefs := prefs w; draws := draws w; steps := steps w;
     client_instance := client_instance w;
     server_instance := server_instance w;
     mvrx_enabled := b; trace := trace w |}.

Definition set_trace (t : list Event) (w : World) : World :=
  {| prefs := prefs w; draws := draws w; steps := steps w;
     client_instance := client_instance w;
     server_instance := server_instance w;
     mvrx_enabled := mvrx_enabled w; trace := t |}.

(** ** The monad of module code: state and exceptions *)

Inductive Res (A : Type) : Type :=
| Ret (a : A)
| Raise (e : Exn).
Arguments Ret {A} a.
Arguments Raise {A} e.

Definition M (A : Type) : Type := World -> Res A * World.

Definition ret {A} (a : A) : M A := fun w => (Ret a, w).

Definition raise {A} (e : Exn) : M A := fun w => (Raise e, w).

Definition bind {A B} (m : M A) (k : A -> M B) : M B :=
  fun w => match m w with
           | (Ret a, w') => k a w'
           | (Raise e, w') => (Raise e, w')
           end.

Declare Scope py_scope.
Delimit Scope py_scope with py.
Notation "x <- m ;; k" := (bind m (fun x => k))
  (at level 100, m at next level, right associativity) : py_scope.
Notation "m ;; k" := (bind m (fun _ => k))
  (at level 100, right associativity) : py_scope.
Open Scope py_scope.

(** [try: body except Exception as e: handler(e)] *)
Definition try_except {A} (body : M A) (handler : Exn -> M A) : M A :=
  fun w => match body w with
           | (Raise e, w') => handler e w'
           | r => r
           end.

Definition emit (e : Event) : M unit :=
  fun w => (Ret tt, set_trace (trace w ++ [e]) w).

Definition print (args : list Shown) : M unit := emit (EPrint args).
Definition log_info (msg : string) : M unit := emit (ELogInfo msg).
Definition log_error (msg : string) : M unit := emit (ELogError msg).
Definition sleep (ms : Z) : M unit := emit (ESleep ms).

(** [obj.attr] where [obj] may be [None]. *)
Definition getattr_opt {A} (o : option A) (attr : string) : M A :=
  match o with
  | Some a => ret a
  | None => raise (AttributeError "NoneType" attr)
  end.

Definition read {A} (f : World -> A) : M A := fun w => (Ret (f w), w).

Definition final {A} (r : Res A * World) : World := snd r.
Definition result {A} (r : Res A * World) : Res A := fst r.

Definition modify (f : World -> World) : M unit := fun w => (Ret tt, f w).

(** ** [os.path.join] (POSIX flavour) *)

Definition starts_with_sep (s : string) : bool :=
  match s with String "/" _ => true | _ => false end.

Fixpoint ends_with_sep (s : string) : bool :=
  match s with
  | "" => false
  | String c "" => bool_decide (c = "/"%char)
  | String _ rest => ends_with_sep rest
  end.

(** One round of the loop of [posixpath.join]: an absolute component
    restarts the path, otherwise it is appended after a separator. *)
Definition join_step (path b : string) : string :=
  if starts_with_sep b then b
  else if bool_decide (path = "") || ends_with_sep path then path +:+ b
  else path +:+ "/" +:+ b.

Definition os_path_join (a : string) (p : list string) : string :=
  fold_left join_step p a.

(** ** Calls out of the module *)

Section Calls.

(** [env] is the behaviour of everything outside the module. *)
Variable env : Env.

(** Perform call number [steps w]: it is recorded with its outcome, and
    its number is returned (for a constructor, the name of the new
    object). *)
Definition call (c : Call) : M nat :=
  fun w =>
    let n := steps w in
    let r := outcome env n c in
    let w' := set_trace (trace w ++ [ECall c r]) (set_steps (S n) w) in
    match r with
    | None => (Ret n, w')
    | Some e => (Raise e, w')
    end.

(** [str(py_uuid.uuid4())] *)
Definition fresh_uuid : M string :=
  fun w => (Ret (str_uuid (uuid4 (urandom env (draws w)))),
            set_draws (S (draws w)) w).

(** [prefs.get("application_uuid", str(py_uuid.uuid4()))]: the default is
    an argument, so it is evaluated before the lookup. *)
Definition read_application_uuid : M string :=
  fallback <- fresh_uuid ;;
  stored <- read (fun w => prefs w !! "application_uuid") ;;
  ret (match stored with Some v => v | None => fallback end).

End Calls.

(** [data[key]] *)
Definition subscript (data : Message) (k : string) : M PyVal :=
  match data !! k with
  | Some v => ret v
  | None => raise (External ("KeyError: " +:+ k))
  end.

(** ** class DMX_MVR_X_Client *)

Module DMX_MVR_X_Client.
Section Methods.

Variable env : Env.

(** [os.path.dirname(os.path.abspath(__file__))] *)
Variable ADDON_PATH : string.

Definition __init__ : M ClientInstance :=
  uuid <- read_application_uuid env ;;
  ret {| client := None; selected_client := None; application_uuid := uuid |}.

(** [DMX_MVR_X_Client._instance.<attr>] for the three data attributes. *)
Definition client_attr {A} (f : ClientInstance -> A) (attr : string) : M A :=
  i <- read client_instance ;;
  i <- getattr_opt i attr ;;
  ret (f i).

(** [DMX_MVR_X_Client._instance.client.<method>(...)] *)
Definition client_method (name : string) (m : ClientMethod) : M unit :=
  t <- client_attr client "client" ;;
  t <- getattr_opt t name ;;
  call env (ClientCall t m) ;;
  ret tt.

(** [DMX_MVR_X_Client._instance._dmx.<method>(...)] *)
Definition client_host (h : HostCall) : M unit :=
  client_attr (fun _ => tt) "_dmx" ;;
  call env (Host h) ;;
  ret tt.

Definition callback (data : Message) : M unit :=
  if negb (has_key "StationUUID" data) then
    print [SStr "Bad response"; SVal (VDict data)]
  else
    uuid <- subscript data "StationUUID" ;;
    (if has_key "Commits" data then
       client_attr (fun _ => tt) "_dmx" ;;
       commits <- subscript data "Commits" ;;
       call env (Host (createMVR_Commits commits uuid)) ;; ret tt
     else ret tt) ;;
    (if has_key "FileUUID" data then
       client_host (createMVR_Commits (VList [VDict data]) uuid)
     else ret tt) ;;
    (if has_key "Provider" data then
       provider <- subscript data "Provider" ;;
       client_host (updateMVR_Client provider uuid)
     else ret tt) ;;
    (if has_key "file_downloaded" data then
       client_attr (fun _ => tt) "_dmx" ;;
       path <- subscript data "file_downloaded" ;;
       call env (Host (fetched_mvr_downloaded_file path)) ;; ret tt
     else ret tt) ;;
    let msg_type := get_default "Type" data in
    let msg_ok := get_default "OK" data in
    if py_eq_str msg_type "MVR_JOIN_RET" && py_is_False msg_ok then
      log_error "MVR-xchange client refused our connection" ;;
      modify (set_mvrx_enabled false)
    else ret tt.

(** [DMX_MVR_X_Client._instance.client = t] *)
Definition client_set_client (t : nat) : M unit :=
  i <- read client_instance ;;
  i <- getattr_opt i "client" ;;
  modify (set_client_instance
            (Some {| client := Some t;
                     selected_client := selected_client i;
                     application_uuid := application_uuid i |})).

Definition connect : M unit :=
  inst <- read client_instance ;;
  match inst with
  | None => ret tt
  | Some _ =>
      connected <-
        try_except
          (peer <- client_attr selected_client "selected_client" ;;
           ip <- (p <- getattr_opt peer "ip_address" ;; ret (ip_address p)) ;;
           prt <- (p <- getattr_opt peer "port" ;; ret (port p)) ;;
           print [SStr "Connecting to MVR-xchange client"; SStr ip; SInt prt] ;;
           uuid <- client_attr application_uuid "application_uuid" ;;
           t <- call env (ClientNew ip prt 0 uuid) ;;
           client_set_client t ;;
           ret true)
          (fun e => print [SStr "Cannot connect to host"; SExn e] ;; ret false) ;;
      if connected then
        client_method "start" start ;;
        print [SStr "thread started"]
      else ret tt
  end.

(** The path expression of [DMX_MVR_X_Client.request_file]. *)
Definition request_path (commit : Commit) : string :=
  os_path_join ADDON_PATH ["assets"; "mvrs"; commit_uuid commit +:+ ".mvr"].

Definition has_transport (i : ClientInstance) : bool :=
  match client i with Some _ => true | None => false end.

Definition request_file (commit : Commit) : M unit :=
  inst <- read client_instance ;;
  match inst with
  | None => ret tt
  | Some i =>
      if has_transport i then
        let path := request_path commit in
        requested <-
          try_except
            (connect ;;
             client_method "request_file" (transport_request_file commit path) ;;
             ret true)
            (fun e => print [SStr "problem requesting file"; SExn e] ;; ret false) ;;
        if requested then log_info "Requesting file" else ret tt
      else ret tt
  end.

Definition re_join : M unit :=
  inst <- read client_instance ;;
  match inst with
  | None => ret tt
  | Some i =>
      if has_transport i then
        try_except
          (connect ;;
           client_method "join_mvr" join_mvr)
          (fun e => print [SStr "problem re_joining"; SExn e])
      else ret tt
  end.

(** [DMX_MVR_X_Client._instance.selected_client = peer] *)
Definition client_set_selected (peer : Peer) : M unit :=
  i <- read client_instance ;;
  i <- getattr_opt i "selected_client" ;;
  modify (set_client_instance
            (Some {| client := client i;
                     selected_client := Some peer;
                     application_uuid := application_uuid i |})).

Definition join (peer : Peer) : M unit :=
  i <- __init__ ;;
  modify (set_client_instance (Some i)) ;;
  client_set_selected peer ;;
  connect ;;
  client_method "join_mvr" join_mvr ;;
  log_info "Joining".

Definition disable : M unit :=
  inst <- read client_instance ;;
  (match inst with
   | None => ret tt
   | Some i =>
       print [SStr "stop one"] ;;
       (if has_transport i then
          print [SStr "stop two"] ;;
          client_method "stop" stop
        else ret tt) ;;
       modify (set_client_instance None) ;;
       print [SStr "stopped"] ;;
       log_info "Disabling MVR"
   end) ;;
  print [SStr "i am gone"].

Definition leave : M unit :=
  inst <- read client_instance ;;
  match inst with
  | None => ret tt
  | Some i =>
      (if has_transport i then
         connect ;;
         client_method "leave_mvr" leave_mvr ;;
         sleep 300 ;;
         client_method "stop" stop
       else ret tt) ;;
      modify (set_client_instance None) ;;
      log_info "Disabling MVR"
  end.

End Methods.
End DMX_MVR_X_Client.

(** ** class DMX_MVR_X_Server *)

Module DMX_MVR_X_Server.
Section Methods.

Variable env : Env.
Variable ADDON_PATH : string.

Definition __init__ : M ServerInstance :=
  uuid <- read_application_uuid env ;;
  ret {| server := None; server_application_uuid := uuid |}.

Definition server_attr {A} (f : ServerInstance -> A) (attr : string) : M A :=
  i <- read server_instance ;;
  i <- getattr_opt i attr ;;
  ret (f i).

(** [DMX_MVR_X_Server._instance.server.<method>(...)] *)
Definition server_method (name : string) (m : ServerMethod) : M unit :=
  t <- server_attr server "server" ;;
  t <- getattr_opt t name ;;
  call env (ServerCall t m) ;;
  ret tt.

(** [DMX_MVR_X_Server._instance._dmx.<method>(...)] *)
Definition server_host (h : HostCall) : M unit :=
  server_attr (fun _ => tt) "_dmx" ;;
  call env (Host h) ;;
  ret tt.

Definition callback (json_data : Message) (data : ConnData) : M unit :=
  print [SStr "callback"; SVal (VDict json_data); SConn data] ;;
  let '(addr, port) := addr data in
  if negb (has_key "StationUUID" json_data) then
    print [SStr "Bad response"; SVal (VDict json_data)]
  else
    uuid <- subscript json_data "StationUUID" ;;
    (if has_key "Commits" json_data then
       server_attr (fun _ => tt) "_dmx" ;;
       commits <- subscript json_data "Commits" ;;
       call env (Host (createMVR_Commits commits uuid)) ;; ret tt
     else ret tt) ;;
    (if has_key "FileUUID" json_data then
       server_host (createMVR_Commits (VList [VDict json_data]) uuid)
     else ret tt) ;;
    (if has_key "Provider" json_data then
       provider <- subscript json_data "Provider" ;;
       station_name <-
         (if has_key "StationName" json_data
          then subscript json_data "StationName"
          else ret (VStr "")) ;;
       server_host (createMVR_Client station_name uuid VNone addr port provider)
     else ret tt) ;;
    (if has_key "file_downloaded" json_data then
       server_attr (fun _ => tt) "_dmx" ;;
       path <- subscript json_data "file_downloaded" ;;
       call env (Host (fetched_mvr_downloaded_file path)) ;; ret tt
     else ret tt).

(** Truth value of [instance.<name>] for an instance of the class: the
    data attributes set by [__init__] and the attributes of the class
    itself exist, any other name raises. *)
Definition instance_attr_truth (i : ServerInstance) (name : string) : M bool :=
  if bool_decide (name = "server") then
    ret (match server i with Some _ => true | None => false end)
  else if bool_decide (name = "application_uuid") then
    ret (negb (bool_decide (server_application_uuid i = "")))
  else if bool_decide (name ∈ ["_dmx"; "callback"; "request_file"; "enable";
                               "get_port"; "disable"]) then
    ret true
  else if bool_decide (name = "_instance") then
    i <- read server_instance ;;
    ret (match i with Some _ => true | None => false end)
  else raise (AttributeError "DMX_MVR_X_Server" name).

(** The path expression of [DMX_MVR_X_Server.request_file]. *)
Definition request_path (commit : Commit) : string :=
  os_path_join ADDON_PATH ["assets"; "mvrs"; commit_uuid commit +:+ ".mvr"].

Definition request_file (commit : Commit) : M unit :=
  inst <- read server_instance ;;
  match inst with
  | None => ret tt
  | Some i =>
      guard <- instance_attr_truth i "DMX_MVR_X_Server" ;;
      if guard : bool then
        let path := request_path commit in
        requested <-
          try_except
            (server_method "request_file" (listener_request_file commit path) ;;
             ret true)
            (fun _ => print [SStr "problem requesting file"] ;; ret false) ;;
        if requested then log_info "Requesting file" else ret tt
      else ret tt
  end.

(** [DMX_MVR_X_Server._instance.server = t] *)
Definition server_set_server (t : nat) : M unit :=
  i <- read server_instance ;;
  i <- getattr_opt i "server" ;;
  modify (set_server_instance
            (Some {| server := Some t;
                     server_application_uuid := server_application_uuid i |})).

Definition enable : M unit :=
  inst <- read server_instance ;;
  match inst with
  | Some _ => ret tt
  | None =>
      i <- __init__ ;;
      modify (set_server_instance (Some i)) ;;
      started <-
        try_except
          (uuid <- server_attr server_application_uuid "application_uuid" ;;
           t <- call env (ServerNew uuid) ;;
           server_set_server t ;;
           ret true)
          (fun e => print [SStr "Cannot connect to host"; SExn e] ;; ret false) ;;
      if started then server_method "start" listener_start else ret tt
  end.

Definition get_port : M (option Z) :=
  inst <- read server_instance ;;
  match inst with
  | None => ret None
  | Some _ =>
      t <- server_attr server "server" ;;
      t <- getattr_opt t "get_port" ;;
      call env (ServerCall t listener_get_port) ;;
      ret (Some (listening_port env t))
  end.

Definition disable : M unit :=
  inst <- read server_instance ;;
  match inst with
  | None => ret tt
  | Some i =>
      (match server i with
       | Some _ => server_method "stop" listener_stop
       | None => ret tt
       end) ;;
      modify (set_server_instance None) ;;
      log_info "Disabling MVR"
  end.

End Methods.
End DMX_MVR_X_Server.

(** ** Concrete worlds used in the examples *)

Definition fresh_world : World :=
  {| prefs := ∅; draws := 0; steps := 0;
     client_instance := None; server_instance := None;
     mvrx_enabled := true; trace := [] |}.

(** An environment in which nothing outside the module ever fails and the
    [n]-th random draw is [n]. *)
Definition calm : Env :=
  {| urandom := fun n => Z.of_nat n;
     outcome := fun _ _ => None;
     listening_port := fun _ => 48484 |}.

(** An environment in which no transport can be constructed. *)
Definition unreachable : Env :=
  {| urandom := fun n => Z.of_nat n;
     outcome := fun _ c =>
       match c with
       | ClientNew _ _ _ _ => Some (External "ConnectionRefusedError")
       | ServerNew _ => Some (External "OSError")
       | _ => None
       end;
     listening_port := fun _ => 0 |}.

Definition peer1 : Peer := {| ip_address := "192.168.1.20"; port := 5568 |}.

Definition commit1 : Commit :=
  {| commit_uuid := "c1"; file_uuid := "f1"; station_uuid := "A1";
     timestamp := 0; comment := "" |}.

(** ** The entry points of the module, as a transition system *)

(** The host, the user interface and the network threads drive the module
    through its static methods. *)
Inductive Op : Type :=
| client_callback (data : Message)
| client_request_file (commit : Commit)
| client_re_join
| client_connect
| client_join (peer : Peer)
| client_disable
| client_leave
| server_callback (json_data : Message) (data : ConnData)
| server_request_file (commit : Commit)
| server_enable
| server_get_port
| server_disable.

Definition exec (env : Env) (ADDON_PATH : string) (o : Op) : M unit :=
  match o with
  | client_callback data => DMX_MVR_X_Client.callback env data
  | client_request_file c => DMX_MVR_X_Client.request_file env ADDON_PATH c
  | client_re_join => DMX_MVR_X_Client.re_join env
  | client_connect => DMX_MVR_X_Client.connect env
  | client_join peer => DMX_MVR_X_Client.join env peer
  | client_disable => DMX_MVR_X_Client.disable env
  | client_leave => DMX_MVR_X_Client.leave env
  | server_callback j d => DMX_MVR_X_Server.callback env j d
  | server_request_file c => DMX_MVR_X_Server.request_file env ADDON_PATH c
  | server_enable => DMX_MVR_X_Server.enable env
  | server_get_port => DMX_MVR_X_Server.get_port env ;; ret tt
  | server_disable => DMX_MVR_X_Server.disable env
  end.

(** An exception leaves the entry point; the process and the module state
    live on, so a run continues from the world the call left behind. *)
Definition step (env : Env) (ADDON_PATH : string) (w : World) (o : Op) : World :=
  final (exec env ADDON_PATH o w).

Definition run (env : Env) (ADDON_PATH : string) (ops : list Op) (w : World) : World :=
  fold_left (step env ADDON_PATH) ops w.

(** ** Predicates used in the statements *)

(** Every live instance carries the identifier [v], which is the one the
    preferences hold. *)
Definition uuid_inv (v : string) (w : World) : Prop :=
  prefs w !! "application_uuid" = Some v /\
  (forall i, client_instance w = Some i -> application_uuid i = v) /\
  (forall i, server_instance w = Some i -> server_application_uuid i = v).

(** The identifier a construction in world [w] reads. *)
Definition station_uuid_read (env : Env) (w : World) : string :=
  match prefs w !! "application_uuid" with
  | Some v => v
  | None => str_uuid (uuid4 (urandom env (draws w)))
  end.

(** The host's handlers return normally. *)
Definition host_total (env : Env) : Prop :=
  forall n h, outcome env n (Host h) = None.

(** The methods of client transports return normally. *)
Definition transport_total (env : Env) : Prop :=
  forall n t m, outcome env n (ClientCall t m) = None.

Definition is_rejection (e : Event) : bool :=
  match e with
  | ELogError "MVR-xchange client refused our connection" => true
  | _ => false
  end.

(** The calls made to the host, in order. *)
Definition host_calls (t : list Event) : list HostCall :=
  omap (fun e => match e with ECall (Host h) _ => Some h | _ => None end) t.

(** The calls made to transports and listeners, in order. *)
Definition network_calls (t : list Event) : list Call :=
  omap (fun e => match e with
                 | ECall (Host _) _ => None
                 | ECall c _ => Some c
                 | _ => None
                 end) t.


(** What the fields of a message ask of the host, field by field, in the
    order the client callback looks at them. *)
Definition client_dispatch (data : Message) (uuid : PyVal) : list HostCall :=
  match data !! "Commits" with
  | Some commits => [createMVR_Commits commits uuid] | None => [] end ++
  match data !! "FileUUID" with
  | Some _ => [createMVR_Commits (VList [VDict data]) uuid] | None => [] end ++
  match data !! "Provider" with
  | Some provider => [updateMVR_Client provider uuid] | None => [] end ++
  match data !! "file_downloaded" with
  | Some path => [fetched_mvr_downloaded_file path] | None => [] end.

(** The same for the server callback, which registers the peer with the
    address of the connection. *)
Definition server_dispatch (data : Message) (conn : ConnData) (uuid : PyVal)
  : list HostCall :=
  match data !! "Commits" with
  | Some commits => [createMVR_Commits commits uuid] | None => [] end ++
  match data !! "FileUUID" with
  | Some _ => [createMVR_Commits (VList [VDict data]) uuid] | None => [] end ++
  match data !! "Provider" with
  | Some provider =>
      [createMVR_Client (default (VStr "") (data !! "StationName")) uuid VNone
         (fst (addr conn)) (snd (addr conn)) provider]
  | None => [] end ++
  match data !! "file_downloaded" with
  | Some path => [fetched_mvr_downloaded_file path] | None => [] end.

(** The fields a callback looks for, and how many of them a message
    carries. *)
Definition handled_fields : list string :=
  ["Commits"; "FileUUID"; "Provider"; "file_downloaded"].

Definition fields_present (data : Message) : nat :=
  length (List.filter (fun k => has_key k data) handled_fields).

(** The join acknowledgement that refuses the join. *)
Definition is_join_refusal (data : Message) : bool :=
  py_eq_str (get_default "Type" data) "MVR_JOIN_RET"
  && py_is_False (get_default "OK" data).

(** A world in which the client has joined [peer1] and the server is
    enabled. *)
Definition joined_world : World :=
  run calm "/opt/dmx" [client_join peer1; server_enable] fresh_world.

(** A world whose client instance never got a transport: the join was
    attempted while the peer could not be reached. *)
Definition stranded_world : World :=
  run unreachable "/opt/dmx" [client_join peer1] fresh_world.

Definition conn1 : ConnData := {| addr := ("192.168.1.20", 49152) |}.

(** A message without [StationUUID]. *)
Definition anonymous_msg : Message :=
  <["Type" := VStr "MVR_JOIN_RET"]> (<["OK" := VBool false]> ∅).

(** The refusal of a join. *)
Definition refusal_msg : Message :=
  <["StationUUID" := VStr "A1"]> anonymous_msg.

(** The acceptance of a join, with the commit list and the provider of the
    peer in the same message. *)
Definition welcome_msg : Message :=
  <["Type" := VStr "MVR_JOIN_RET"]>
  (<["OK" := VBool true]>
  (<["StationUUID" := VStr "A1"]>
  (<["Provider" := VStr "BlenderDMX"]>
  (<["Commits" := VList [VDict (<["FileUUID" := VStr "c1"]> ∅)]]> ∅)))).

(** The events of a construction attempt for [p] with outcome [r]. *)
Definition attempt_events (p : Peer) (uuid : string) (r : option Exn) : list Event :=
  [EPrint [SStr "Connecting to MVR-xchange client";
           SStr (ip_address p); SInt (port p)];
   ECall (ClientNew (ip_address p) (port p) 0 uuid) r].

(** The world once the transport for [p] has been constructed and its
    [start] has had outcome [r]. *)
Definition after_connect (i : ClientInstance) (p : Peer) (r : option Exn)
    (w : World) : World :=
  set_client_instance
    (Some {| client := Some (steps w); selected_client := selected_client i;
             application_uuid := application_uuid i |})
    (set_trace
       (trace w ++ attempt_events p (application_uuid i) None
        ++ ECall (ClientCall (steps w) start) r
        :: match r with
           | None => [EPrint [SStr "thread started"]]
           | Some _ => []
           end)
       (set_steps (S (S (steps w))) w)).

(** A world whose preferences hold a station identifier. *)
Definition configured_world : World :=
  {| prefs := <["application_uuid" := "3F2504E0-4F89-11D3-9A0C-0305E82C3301"]> ∅;
     draws := 0; steps := 0;
     client_instance := None; server_instance := None;
     mvrx_enabled := true; trace := [] |}.

(** [m] keeps the identifier invariant for [v], whatever way it ends, and
    its results satisfy [Q]. *)
Definition keeps (v : string) {A} (m : M A) (Q : A -> Prop) : Prop :=
  forall w, uuid_inv v w ->
    uuid_inv v (final (m w)) /\ forall a, result (m w) = Ret a -> Q a.

Definition safe (v : string) {A} (m : M A) : Prop := keeps v m (fun _ => True).

(** The number of join refusals reported so far. *)
Definition rejections (t : list Event) : nat :=
  length (List.filter is_rejection t).

(** The world after [calls] to the host that all returned. *)
Definition after_host_calls (calls : list HostCall) (w : World) : World :=
  set_trace (trace w ++ map (fun h => ECall (Host h) None) calls)
    (set_steps (length calls + steps w) w).

(** The world after the refusal of a join has been handled. *)
Definition after_refusal (w : World) : World :=
  set_mvrx_enabled false
    (set_trace
       (trace w ++ [ELogError "MVR-xchange client refused our connection"]) w).

(** ** The events and worlds of a reconnect *)

(** The events of a reconnect that succeeds: the transport [n] for [p] is
    constructed and started. *)
Definition reconnect_events (p : Peer) (uuid : string) (n : nat) : list Event :=
  attempt_events p uuid None
  ++ [ECall (ClientCall n start) None; EPrint [SStr "thread started"]].

(** The events of a reconnect that the constructor refuses with [e]. *)
Definition refused_events (p : Peer) (uuid : string) (e : Exn) : list Event :=
  attempt_events p uuid (Some e)
  ++ [EPrint [SStr "Cannot connect to host"; SExn e]].

(** The events of a reconnect without a selected peer. *)
Definition no_peer_events : list Event :=
  [EPrint [SStr "Cannot connect to host";
           SExn (AttributeError "NoneType" "ip_address")]].

(** The file request on transport [t] with outcome [ro], and what follows
    it. *)
Definition request_events (t : nat) (commit : Commit) (path : string)
    (ro : option Exn) : list Event :=
  ECall (ClientCall t (transport_request_file commit path)) ro
  :: match ro with
     | None => [ELogInfo "Requesting file"]
     | Some e => [EPrint [SStr "problem requesting file"; SExn e]]
     end.

(** The join on transport [t] with outcome [rj], and what [re_join] prints
    after it. *)
Definition rejoin_events (t : nat) (rj : option Exn) : list Event :=
  ECall (ClientCall t join_mvr) rj
  :: match rj with
     | None => []
     | Some e => [EPrint [SStr "problem re_joining"; SExn e]]
     end.

(** LEAVE, the wait and the teardown on transport [t], all returning. *)
Definition leave_events (t : nat) : list Event :=
  [ECall (ClientCall t leave_mvr) None; ESleep 300;
   ECall (ClientCall t stop) None; ELogInfo "Disabling MVR"].

(** The instance [i] once it holds transport [n]. *)
Definition with_transport (n : nat) (i : ClientInstance) : ClientInstance :=
  {| client := Some n; selected_client := selected_client i;
     application_uuid := application_uuid i |}.

(** The world after [k] more calls out of the module that left [events]. *)
Definition advanced (k : nat) (events : list Event) (w : World) : World :=
  set_trace (trace w ++ events) (set_steps (k + steps w) w).


(** ** Classes of entry points and further observations *)

Definition is_callback (o : Op) : bool :=
  match o with
  | client_callback _ | server_callback _ _ => true
  | _ => false
  end.

Definition is_client_op (o : Op) : bool :=
  match o with
  | client_callback _ | client_request_file _ | client_re_join | client_connect
  | client_join _ | client_disable | client_leave => true
  | _ => false
  end.

(** The identifiers an entry point draws: one per construction. *)
Definition uuid_draws (o : Op) (w : World) : nat :=
  match o with
  | client_join _ => 1
  | server_enable => match server_instance w with Some _ => 0 | None => 1 end
  | _ => 0
  end.

(** The transports that were told to stop, in order. *)
Definition stop_calls (t : list Event) : list nat :=
  omap (fun e => match e with
                 | ECall (ClientCall t stop) _ => Some t
                 | _ => None
                 end) t.

(** The file requests handed to a listener. *)
Definition listener_requests (t : list Event) : list (Commit * string) :=
  omap (fun e => match e with
                 | ECall (ServerCall _ (listener_request_file c p)) _ => Some (c, p)
                 | _ => None
                 end) t.

(** The listener can be constructed and its methods return normally. *)
Definition listener_total (env : Env) : Prop :=
  (forall n u, outcome env n (ServerNew u) = None) /\
  (forall n t m, outcome env n (ServerCall t m) = None).

(** [m] takes every world to one related to it by [R], whatever way it
    ends. *)
Definition frames (R : World -> World -> Prop) {A} (m : M A) : Prop :=
  forall w, R w (final (m w)).

(** ** Proof tools *)

Ltac py_unfold :=
  unfold print, log_info, log_error, sleep, emit, modify, read, ret, raise,
         bind, try_except, getattr_opt, call, final, result in *.

Ltac py_simpl := repeat (progress (py_unfold; cbn in *)).

Ltac norm_trace := repeat rewrite <- app_assoc; cbn [app].

Ltac py_go :=
  repeat (progress
            (unfold print, log_info, log_error, sleep, emit, modify, read, ret,
               raise, bind, try_except, getattr_opt, call, final, result;
             cbn)).

(** Split on the outcome of every call out of the module, in the order the
    calls are made. *)
Ltac py_cases :=
  py_go;
  repeat (match goal with
          | |- context [match outcome ?e ?n ?c with _ => _ end] =>
              let E := fresh "Eo" in destruct (outcome e n c) eqn:E
          end; py_go).

(** Identifiers and paths stay folded while the module code is run. *)
Arguments str_uuid : simpl never.
Arguments uuid4 : simpl never.
Arguments os_path_join : simpl never.
Arguments DMX_MVR_X_Client.request_path : simpl never.
Arguments DMX_MVR_X_Server.request_path : simpl never.

Ltac client_unfold :=
  unfold DMX_MVR_X_Client.request_file, DMX_MVR_X_Client.re_join,
    DMX_MVR_X_Client.join, DMX_MVR_X_Client.leave, DMX_MVR_X_Client.disable,
    DMX_MVR_X_Client.connect, DMX_MVR_X_Client.__init__,
    DMX_MVR_X_Client.client_method, DMX_MVR_X_Client.client_set_client,
    DMX_MVR_X_Client.client_set_selected, DMX_MVR_X_Client.client_host,
    DMX_MVR_X_Client.client_attr, DMX_MVR_X_Client.has_transport,
    read_application_uuid, fresh_uuid in *.

Ltac server_unfold :=
  unfold DMX_MVR_X_Server.request_file, DMX_MVR_X_Server.enable,
    DMX_MVR_X_Server.get_port, DMX_MVR_X_Server.disable,
    DMX_MVR_X_Server.__init__, DMX_MVR_X_Server.server_method,
    DMX_MVR_X_Server.server_set_server, DMX_MVR_X_Server.server_host,
    DMX_MVR_X_Server.server_attr, DMX_MVR_X_Server.instance_attr_truth,
    read_application_uuid, fresh_uuid in *.

(** Project the fields out of an updated world without touching the
    functions over traces. *)
Ltac world_fields :=
  unfold final, result;
  cbn [fst snd prefs draws steps client_instance server_instance
       mvrx_enabled trace set_draws set_steps set_client_instance
       set_server_instance set_mvrx_enabled set_trace].

Ltac open_world w :=
  let pf := fresh "pf" in let dr := fresh "dr" in let st := fresh "st" in
  let ci := fresh "ci" in let si := fresh "si" in let en := fresh "en" in
  let tr := fresh "tr" in
  destruct w as [pf dr st ci si en tr]; cbn in *; subst.

(** * Theorems *)

(** ** Station identifiers *)

Lemma str_uuid_version_char (u : Z) :
  String.get 14 (str_uuid u) = Some (hex_digit (Z.land (Z.shiftr u 76) 15)).
Proof. reflexivity. Qed.

Lemma uuid4_version_nibble (r : Z) : Z.land (Z.shiftr (uuid4 r) 76) 15 = 4.
Proof.
  apply Z.bits_inj'. intros n Hn.
  rewrite Z.land_spec, Z.shiftr_spec by lia.
  unfold uuid4. cbv zeta.
  rewrite Z.lor_spec, Z.land_spec, Z.lnot_spec by lia.
  rewrite !Z.shiftl_spec by lia.
  destruct (Z.ltb_spec n 4) as [Hlt|Hge].
  - assert (n = 0 \/ n = 1 \/ n = 2 \/ n = 3) as Hc by lia.
    destruct Hc as [-> | [-> | [-> | ->]]]; cbn;
      rewrite ?andb_false_r, ?andb_true_r, ?orb_false_r, ?orb_true_r; reflexivity.
  - replace (Z.testbit 15 n) with false.
    2:{ symmetry. apply (Z.bits_above_log2 15 n); cbn; lia. }
    rewrite andb_false_r. symmetry.
    apply (Z.bits_above_log2 4 n); cbn; lia.
Qed.

Lemma str_uuid4_not_nil (r : Z) : str_uuid (uuid4 r) <> nil_uuid.
Proof.
  intros H. pose proof (str_uuid_version_char (uuid4 r)) as Hc.
  rewrite H, uuid4_version_nibble in Hc. discriminate Hc.
Qed.

Example str_uuid4_zero_entropy :
  str_uuid (uuid4 0) = "00000000-0000-4000-8000-000000000000".
Proof. reflexivity. Qed.

(** ** Lookups *)

Lemma has_key_None k (data : Message) : data !! k = None -> has_key k data = false.
Proof. unfold has_key. intros ->. reflexivity. Qed.

Lemma has_key_Some k (data : Message) v :
  data !! k = Some v -> has_key k data = true.
Proof. unfold has_key. intros ->. reflexivity. Qed.

(** ** Traces *)

Lemma host_calls_app (t1 t2 : list Event) :
  host_calls (t1 ++ t2) = host_calls t1 ++ host_calls t2.
Proof. unfold host_calls. apply omap_app. Qed.

Lemma network_calls_app (t1 t2 : list Event) :
  network_calls (t1 ++ t2) = network_calls t1 ++ network_calls t2.
Proof. unfold network_calls. apply omap_app. Qed.


Lemma rejections_app (t1 t2 : list Event) :
  rejections (t1 ++ t2) = (rejections t1 + rejections t2)%nat.
Proof. unfold rejections. rewrite List.filter_app, length_app. reflexivity. Qed.

Lemma host_calls_of_host_events (calls : list HostCall) :
  host_calls (map (fun h => ECall (Host h) None) calls) = calls.
Proof. induction calls as [|h l IH]; cbn; [reflexivity | f_equal; exact IH]. Qed.

Lemma network_calls_of_host_events (calls : list HostCall) :
  network_calls (map (fun h => ECall (Host h) None) calls) = [].
Proof. induction calls as [|h l IH]; cbn; [reflexivity | exact IH]. Qed.

Lemma rejections_of_host_events (calls : list HostCall) :
  rejections (map (fun h => ECall (Host h) None) calls) = 0%nat.
Proof. induction calls as [|h l IH]; cbn; [reflexivity | exact IH]. Qed.

(** ** [request_file], [re_join] and [leave], case by case *)

Section RequestFile.
Variable env : Env.
Variable path : string.
Variable commit : Commit.

Lemma request_file_reconnected (w : World) (i : ClientInstance) (t : nat) (p : Peer) :
  client_instance w = Some i -> client i = Some t -> selected_client i = Some p ->
  outcome env (steps w)
    (ClientNew (ip_address p) (port p) 0 (application_uuid i)) = None ->
  outcome env (S (steps w)) (ClientCall (steps w) start) = None ->
  DMX_MVR_X_Client.request_file env path commit w =
    (Ret tt,
     set_client_instance (Some (with_transport (steps w) i))
       (advanced 3
          (reconnect_events p (application_uuid i) (steps w)
           ++ request_events (steps w) commit
                (DMX_MVR_X_Client.request_path path commit)
                (outcome env (S (S (steps w)))
                   (ClientCall (steps w)
                      (transport_request_file commit
                         (DMX_MVR_X_Client.request_path path commit)))))
          w)).
Proof.
  intros Hi Hc Hs Hn Hst. open_world w. destruct i as [c s u]. cbn in *. subst.
  client_unfold. unfold advanced, reconnect_events, request_events, with_transport.
  repeat (py_go; rewrite ?Hn, ?Hst).
  destruct (outcome env (S (S st)) _); py_go; norm_trace; reflexivity.
Qed.

Lemma request_file_refused (w : World) (i : ClientInstance) (t : nat) (p : Peer)
    (e : Exn) :
  client_instance w = Some i -> client i = Some t -> selected_client i = Some p ->
  outcome env (steps w)
    (ClientNew (ip_address p) (port p) 0 (application_uuid i)) = Some e ->
  DMX_MVR_X_Client.request_file env path commit w =
    (Ret tt,
     advanced 2
       (refused_events p (application_uuid i) e
        ++ request_events t commit (DMX_MVR_X_Client.request_path path commit)
             (outcome env (S (steps w))
                (ClientCall t
                   (transport_request_file commit
                      (DMX_MVR_X_Client.request_path path commit)))))
       w).
Proof.
  intros Hi Hc Hs Hn. open_world w. destruct i as [c s u]. cbn in *. subst.
  client_unfold. unfold advanced, refused_events, request_events.
  repeat (py_go; rewrite ?Hn).
  destruct (outcome env (S st) _); py_go; norm_trace; reflexivity.
Qed.

Lemma request_file_start_fails (w : World) (i : ClientInstance) (t : nat) (p : Peer)
    (e : Exn) :
  client_instance w = Some i -> client i = Some t -> selected_client i = Some p ->
  outcome env (steps w)
    (ClientNew (ip_address p) (port p) 0 (application_uuid i)) = None ->
  outcome env (S (steps w)) (ClientCall (steps w) start) = Some e ->
  DMX_MVR_X_Client.request_file env path commit w =
    (Ret tt,
     set_client_instance (Some (with_transport (steps w) i))
       (advanced 2
          (attempt_events p (application_uuid i) None
           ++ [ECall (ClientCall (steps w) start) (Some e);
               EPrint [SStr "problem requesting file"; SExn e]])
          w)).
Proof.
  intros Hi Hc Hs Hn Hst. open_world w. destruct i as [c s u]. cbn in *. subst.
  client_unfold. unfold advanced, with_transport.
  repeat (py_go; rewrite ?Hn, ?Hst). norm_trace. reflexivity.
Qed.

Lemma request_file_no_peer (w : World) (i : ClientInstance) (t : nat) :
  client_instance w = Some i -> client i = Some t -> selected_client i = None ->
  DMX_MVR_X_Client.request_file env path commit w =
    (Ret tt,
     advanced 1
       (no_peer_events
        ++ request_events t commit (DMX_MVR_X_Client.request_path path commit)
             (outcome env (steps w)
                (ClientCall t
                   (transport_request_file commit
                      (DMX_MVR_X_Client.request_path path commit)))))
       w).
Proof.
  intros Hi Hc Hs. open_world w. destruct i as [c s u]. cbn in *. subst.
  client_unfold. unfold advanced, no_peer_events, request_events.
  py_go. destruct (outcome env st _); py_go; norm_trace; reflexivity.
Qed.

End RequestFile.

Section ReJoinLeave.
Variable env : Env.

Lemma re_join_reconnected (w : World) (i : ClientInstance) (t : nat) (p : Peer) :
  client_instance w = Some i -> client i = Some t -> selected_client i = Some p ->
  outcome env (steps w)
    (ClientNew (ip_address p) (port p) 0 (application_uuid i)) = None ->
  outcome env (S (steps w)) (ClientCall (steps w) start) = None ->
  DMX_MVR_X_Client.re_join env w =
    (Ret tt,
     set_client_instance (Some (with_transport (steps w) i))
       (advanced 3
          (reconnect_events p (application_uuid i) (steps w)
           ++ rejoin_events (steps w)
                (outcome env (S (S (steps w))) (ClientCall (steps w) join_mvr)))
          w)).
Proof.
  intros Hi Hc Hs Hn Hst. open_world w. destruct i as [c s u]. cbn in *. subst.
  client_unfold. unfold advanced, reconnect_events, rejoin_events, with_transport.
  repeat (py_go; rewrite ?Hn, ?Hst).
  destruct (outcome env (S (S st)) _); py_go; norm_trace; reflexivity.
Qed.

Lemma re_join_refused (w : World) (i : ClientInstance) (t : nat) (p : Peer) (e : Exn) :
  client_instance w = Some i -> client i = Some t -> selected_client i = Some p ->
  outcome env (steps w)
    (ClientNew (ip_address p) (port p) 0 (application_uuid i)) = Some e ->
  DMX_MVR_X_Client.re_join env w =
    (Ret tt,
     advanced 2
       (refused_events p (application_uuid i) e
        ++ rejoin_events t (outcome env (S (steps w)) (ClientCall t join_mvr)))
       w).
Proof.
  intros Hi Hc Hs Hn. open_world w. destruct i as [c s u]. cbn in *. subst.
  client_unfold. unfold advanced, refused_events, rejoin_events.
  repeat (py_go; rewrite ?Hn).
  destruct (outcome env (S st) _); py_go; norm_trace; reflexivity.
Qed.

Lemma re_join_start_fails (w : World) (i : ClientInstance) (t : nat) (p : Peer)
    (e : Exn) :
  client_instance w = Some i -> client i = Some t -> selected_client i = Some p ->
  outcome env (steps w)
    (ClientNew (ip_address p) (port p) 0 (application_uuid i)) = None ->
  outcome env (S (steps w)) (ClientCall (steps w) start) = Some e ->
  DMX_MVR_X_Client.re_join env w =
    (Ret tt,
     set_client_instance (Some (with_transport (steps w) i))
       (advanced 2
          (attempt_events p (application_uuid i) None
           ++ [ECall (ClientCall (steps w) start) (Some e);
               EPrint [SStr "problem re_joining"; SExn e]])
          w)).
Proof.
  intros Hi Hc Hs Hn Hst. open_world w. destruct i as [c s u]. cbn in *. subst.
  client_unfold. unfold advanced, with_transport.
  repeat (py_go; rewrite ?Hn, ?Hst). norm_trace. reflexivity.
Qed.

Lemma re_join_no_peer (w : World) (i : ClientInstance) (t : nat) :
  client_instance w = Some i -> client i = Some t -> selected_client i = None ->
  DMX_MVR_X_Client.re_join env w =
    (Ret tt,
     advanced 1
       (no_peer_events
        ++ rejoin_events t (outcome env (steps w) (ClientCall t join_mvr)))
       w).
Proof.
  intros Hi Hc Hs. open_world w. destruct i as [c s u]. cbn in *. subst.
  client_unfold. unfold advanced, no_peer_events, rejoin_events.
  py_go. destruct (outcome env st _); py_go; norm_trace; reflexivity.
Qed.

Lemma leave_reconnected (w : World) (i : ClientInstance) (t : nat) (p : Peer) :
  transport_total env ->
  client_instance w = Some i -> client i = Some t -> selected_client i = Some p ->
  outcome env (steps w)
    (ClientNew (ip_address p) (port p) 0 (application_uuid i)) = None ->
  DMX_MVR_X_Client.leave env w =
    (Ret tt,
     set_client_instance None
       (advanced 4
          (reconnect_events p (application_uuid i) (steps w)
           ++ leave_events (steps w))
          w)).
Proof.
  intros Ht Hi Hc Hs Hn. open_world w. destruct i as [c s u]. cbn in *. subst.
  client_unfold. unfold advanced, reconnect_events, leave_events.
  repeat (py_go; rewrite ?Hn, ?Ht). norm_trace. reflexivity.
Qed.

Lemma leave_refused (w : World) (i : ClientInstance) (t : nat) (p : Peer) (e : Exn) :
  transport_total env ->
  client_instance w = Some i -> client i = Some t -> selected_client i = Some p ->
  outcome env (steps w)
    (ClientNew (ip_address p) (port p) 0 (application_uuid i)) = Some e ->
  DMX_MVR_X_Client.leave env w =
    (Ret tt,
     set_client_instance None
       (advanced 3
          (refused_events p (application_uuid i) e ++ leave_events t) w)).
Proof.
  intros Ht Hi Hc Hs Hn. open_world w. destruct i as [c s u]. cbn in *. subst.
  client_unfold. unfold advanced, refused_events, leave_events.
  repeat (py_go; rewrite ?Hn, ?Ht). norm_trace. reflexivity.
Qed.

Lemma leave_no_peer (w : World) (i : ClientInstance) (t : nat) :
  transport_total env ->
  client_instance w = Some i -> client i = Some t -> selected_client i = None ->
  DMX_MVR_X_Client.leave env w =
    (Ret tt,
     set_client_instance None
       (advanced 2 (no_peer_events ++ leave_events t) w)).
Proof.
  intros Ht Hi Hc Hs. open_world w. destruct i as [c s u]. cbn in *. subst.
  client_unfold. unfold advanced, no_peer_events, leave_events.
  repeat (py_go; rewrite ?Ht). norm_trace. reflexivity.
Qed.



End ReJoinLeave.

(** ** The callbacks, field by field *)

(** With a live instance and a host that returns, the client callback on a
    message that names its station is the list of host calls its fields
    ask for, followed by the handling of a refusal. *)
Lemma client_callback_spec (env : Env) (data : Message) (uuid : PyVal) (w : World) :
  host_total env ->
  data !! "StationUUID" = Some uuid ->
  client_instance w <> None ->
  DMX_MVR_X_Client.callback env data w =
    (Ret tt,
     let w1 := after_host_calls (client_dispatch data uuid) w in
     if is_join_refusal data then after_refusal w1 else w1).
Proof.
  intros Hh Hu Hi. open_world w.
  destruct ci as [i|]; [clear Hi | congruence].
  unfold DMX_MVR_X_Client.callback, after_host_calls, after_refusal,
    client_dispatch, DMX_MVR_X_Client.client_host,
    DMX_MVR_X_Client.client_attr, subscript.
  rewrite (has_key_Some _ _ _ Hu), Hu. unfold has_key.
  destruct (data !! "Commits"), (data !! "FileUUID"), (data !! "Provider"),
    (data !! "file_downloaded"), (is_join_refusal data) eqn:Er;
    unfold is_join_refusal in Er;
    repeat (py_simpl; rewrite ?Hh, ?Er);
    norm_trace; rewrite ?app_nil_r; reflexivity.
Qed.

Lemma server_callback_spec (env : Env) (data : Message) (conn : ConnData)
    (uuid : PyVal) (w : World) :
  host_total env ->
  data !! "StationUUID" = Some uuid ->
  server_instance w <> None ->
  DMX_MVR_X_Server.callback env data conn w =
    (Ret tt,
     after_host_calls (server_dispatch data conn uuid)
       (set_trace
          (trace w ++ [EPrint [SStr "callback"; SVal (VDict data); SConn conn]])
          w)).
Proof.
  intros Hh Hu Hi. open_world w. destruct conn as [[a p]].
  destruct si as [i|]; [clear Hi | congruence].
  unfold DMX_MVR_X_Server.callback, after_host_calls,
    server_dispatch, DMX_MVR_X_Server.server_host,
    DMX_MVR_X_Server.server_attr, subscript.
  cbn [addr fst snd]. rewrite (has_key_Some _ _ _ Hu), Hu. unfold has_key.
  destruct (data !! "Commits"), (data !! "FileUUID"), (data !! "Provider"),
    (data !! "StationName"), (data !! "file_downloaded");
    repeat (py_simpl; rewrite ?Hh);
    norm_trace; rewrite ?app_nil_r; reflexivity.
Qed.

(** ** Messages without a station identifier *)

(** C3: a message that lacks [StationUUID] is reported on the output and
    otherwise ignored, by the client callback and by the server callback:
    the call returns normally, no handler of the host runs, nothing is
    sent to or torn down on the network, and apart from the printed lines
    the world is the one before. *)
Theorem callback_ignores_anonymous_message
    (env : Env) (data : Message) (conn : ConnData) (w : World) :
  data !! "StationUUID" = None ->
  DMX_MVR_X_Client.callback env data w =
    (Ret tt,
     set_trace (trace w ++ [EPrint [SStr "Bad response"; SVal (VDict data)]]) w)
  /\
  DMX_MVR_X_Server.callback env data conn w =
    (Ret tt,
     set_trace
       (trace w ++ [EPrint [SStr "callback"; SVal (VDict data); SConn conn];
                    EPrint [SStr "Bad response"; SVal (VDict data)]]) w).
Proof.
  intros H. split.
  - unfold DMX_MVR_X_Client.callback. rewrite (has_key_None _ _ H). reflexivity.
  - unfold DMX_MVR_X_Server.callback. destruct conn as [[a p]]. cbn [addr].
    rewrite (has_key_None _ _ H). py_simpl. norm_trace. reflexivity.
Qed.

Lemma callback_ignores_anonymous_message_witness :
  DMX_MVR_X_Client.callback calm anonymous_msg joined_world =
    (Ret tt,
     set_trace (trace joined_world
                ++ [EPrint [SStr "Bad response"; SVal (VDict anonymous_msg)]])
       joined_world)
  /\
  DMX_MVR_X_Server.callback calm anonymous_msg conn1 joined_world =
    (Ret tt,
     set_trace
       (trace joined_world
        ++ [EPrint [SStr "callback"; SVal (VDict anonymous_msg); SConn conn1];
            EPrint [SStr "Bad response"; SVal (VDict anonymous_msg)]])
       joined_world).
Proof.
  apply (callback_ignores_anonymous_message calm anonymous_msg conn1 joined_world).
  vm_compute. reflexivity.
Defined.

(** ** Refused joins *)




(** ** Dispatch *)

(** C4, the claim as stated fails: one message can be of several kinds at
    once.  The acceptance of a join that carries the commit list and the
    provider of the peer runs the commit handler and the peer handler. *)
Lemma welcome_runs_two_handlers :
  host_calls (trace (final (DMX_MVR_X_Client.callback calm welcome_msg joined_world)))
  = host_calls (trace joined_world)
    ++ [createMVR_Commits (VList [VDict (<["FileUUID" := VStr "c1"]> ∅)]) (VStr "A1");
        updateMVR_Client (VStr "BlenderDMX") (VStr "A1")].
Proof. vm_compute. reflexivity. Qed.

(** C4, amended: a message that names its station is dispatched by the
    fields it carries, not by one kind: each of [Commits], [FileUUID],
    [Provider] and [file_downloaded] that is present runs its handler of
    the host, independently of the others and in this order
    ([updateMVR_Client] in the client, [createMVR_Client] in the server);
    the client then handles a refused join, the server has no such case.
    So there are as many host calls as handled fields in the message, and
    a message with one of them runs exactly that handler.  This holds
    while the instance exists and the host's handlers return. *)
Theorem callback_dispatches_by_field
    (env : Env) (data : Message) (conn : ConnData) (uuid : PyVal) (w : World) :
  host_total env ->
  data !! "StationUUID" = Some uuid ->
  (client_instance w <> None ->
   let r := DMX_MVR_X_Client.callback env data w in
   result r = Ret tt /\
   host_calls (trace (final r)) = host_calls (trace w) ++ client_dispatch data uuid /\
   network_calls (trace (final r)) = network_calls (trace w) /\
   rejections (trace (final r)) =
     ((if is_join_refusal data then 1 else 0) + rejections (trace w))%nat /\
   mvrx_enabled (final r) =
     (if is_join_refusal data then false else mvrx_enabled w))
  /\
  (server_instance w <> None ->
   let r := DMX_MVR_X_Server.callback env data conn w in
   result r = Ret tt /\
   host_calls (trace (final r)) = host_calls (trace w) ++ server_dispatch data conn uuid /\
   network_calls (trace (final r)) = network_calls (trace w) /\
   rejections (trace (final r)) = rejections (trace w) /\
   mvrx_enabled (final r) = mvrx_enabled w)
  /\
  length (client_dispatch data uuid) = fields_present data /\
  length (server_dispatch data conn uuid) = fields_present data.
Proof.
  intros Hh Hu.
  assert (length (client_dispatch data uuid) = fields_present data /\
          length (server_dispatch data conn uuid) = fields_present data) as Hn.
  { unfold client_dispatch, server_dispatch, fields_present, handled_fields,
      has_key. cbn [List.filter].
    destruct (data !! "Commits"), (data !! "FileUUID"), (data !! "Provider"),
      (data !! "file_downloaded"); split; reflexivity. }
  split; [| split; [| exact Hn]]; intros Hi r; subst r.
  - rewrite (client_callback_spec env data uuid w Hh Hu Hi).
    unfold after_refusal, after_host_calls.
    destruct (is_join_refusal data); world_fields;
      rewrite ?host_calls_app, ?network_calls_app, ?rejections_app,
        ?host_calls_of_host_events, ?network_calls_of_host_events,
        ?rejections_of_host_events; cbn; rewrite ?app_nil_r;
      repeat split; try reflexivity; lia.
  - rewrite (server_callback_spec env data conn uuid w Hh Hu Hi).
    unfold after_host_calls. world_fields.
    rewrite ?host_calls_app, ?network_calls_app, ?rejections_app,
      ?host_calls_of_host_events, ?network_calls_of_host_events,
      ?rejections_of_host_events; cbn; rewrite ?app_nil_r.
    repeat split; try reflexivity; lia.
Qed.

Lemma callback_dispatches_by_field_witness :
  host_calls (trace (final (DMX_MVR_X_Client.callback calm welcome_msg joined_world)))
  = host_calls (trace joined_world) ++ client_dispatch welcome_msg (VStr "A1")
  /\
  host_calls (trace (final (DMX_MVR_X_Server.callback calm welcome_msg conn1 joined_world)))
  = host_calls (trace joined_world) ++ server_dispatch welcome_msg conn1 (VStr "A1").
Proof.
  destruct (callback_dispatches_by_field calm welcome_msg conn1 (VStr "A1")
              joined_world) as (Hc & Hs & _).
  - intros n h. reflexivity.
  - vm_compute. reflexivity.
  - split.
    + apply Hc. vm_compute. discriminate.
    + apply Hs. vm_compute. discriminate.
Defined.

(** ** [connect] *)

Lemma connect_without_instance (env : Env) (w : World) :
  client_instance w = None -> DMX_MVR_X_Client.connect env w = (Ret tt, w).
Proof. intros H. unfold DMX_MVR_X_Client.connect. py_simpl. rewrite H. reflexivity. Qed.

(** No peer selected: reading [client.ip_address] fails inside the [try]. *)
Lemma connect_without_peer (env : Env) (w : World) (i : ClientInstance) :
  client_instance w = Some i ->
  selected_client i = None ->
  DMX_MVR_X_Client.connect env w =
    (Ret tt,
     set_trace
       (trace w ++ [EPrint [SStr "Cannot connect to host";
                            SExn (AttributeError "NoneType" "ip_address")]]) w).
Proof.
  intros Hi Hs. open_world w. destruct i as [c s u]. cbn in *. subst.
  unfold DMX_MVR_X_Client.connect, DMX_MVR_X_Client.client_attr. py_simpl.
  reflexivity.
Qed.

Lemma connect_refused (env : Env) (w : World) (i : ClientInstance) (p : Peer) (e : Exn) :
  client_instance w = Some i ->
  selected_client i = Some p ->
  outcome env (steps w) (ClientNew (ip_address p) (port p) 0 (application_uuid i))
    = Some e ->
  DMX_MVR_X_Client.connect env w =
    (Ret tt,
     set_trace
       (trace w ++ attempt_events p (application_uuid i) (Some e)
        ++ [EPrint [SStr "Cannot connect to host"; SExn e]])
       (set_steps (S (steps w)) w)).
Proof.
  intros Hi Hs Ho. open_world w. destruct i as [c s u]. cbn in *. subst.
  unfold DMX_MVR_X_Client.connect, DMX_MVR_X_Client.client_attr. py_simpl.
  rewrite Ho. py_simpl. norm_trace. reflexivity.
Qed.

Lemma connect_established (env : Env) (w : World) (i : ClientInstance) (p : Peer) :
  client_instance w = Some i ->
  selected_client i = Some p ->
  outcome env (steps w) (ClientNew (ip_address p) (port p) 0 (application_uuid i))
    = None ->
  DMX_MVR_X_Client.connect env w =
    let r := outcome env (S (steps w)) (ClientCall (steps w) start) in
    (match r with None => Ret tt | Some e => Raise e end, after_connect i p r w).
Proof.
  intros Hi Hs Ho. open_world w. destruct i as [c s u]. cbn in *. subst.
  unfold DMX_MVR_X_Client.connect, DMX_MVR_X_Client.client_attr,
    DMX_MVR_X_Client.client_set_client, DMX_MVR_X_Client.client_method,
    DMX_MVR_X_Client.client_attr, after_connect.
  py_simpl. rewrite Ho. py_simpl.
  destruct (outcome env (S st) (ClientCall st start)); py_simpl; norm_trace;
    reflexivity.
Qed.

(** C6, the claim as stated fails: [connect] to a peer that cannot be
    reached returns normally; the caller sees no error. *)
Lemma connect_unreachable_returns :
  outcome unreachable (steps stranded_world)
    (ClientNew (ip_address peer1) (port peer1) 0
       "00000000-0000-4000-8000-000000000000")
  = Some (External "ConnectionRefusedError") /\
  (client_instance stranded_world ≫= selected_client) = Some peer1 /\
  result (DMX_MVR_X_Client.connect unreachable stranded_world) = Ret tt.
Proof. vm_compute. repeat split; reflexivity. Qed.

(** C6, amended: when the transport to the selected peer cannot be
    constructed, [connect] makes exactly one attempt, prints
    "Cannot connect to host" with the error and returns normally: nothing
    is raised to the caller, the instance keeps the [client] it had, and
    nothing is started. *)
Theorem connect_swallows_failure
    (env : Env) (w : World) (i : ClientInstance) (p : Peer) (e : Exn) :
  client_instance w = Some i ->
  selected_client i = Some p ->
  outcome env (steps w) (ClientNew (ip_address p) (port p) 0 (application_uuid i))
    = Some e ->
  let r := DMX_MVR_X_Client.connect env w in
  result r = Ret tt /\
  client_instance (final r) = Some i /\
  network_calls (trace (final r)) =
    network_calls (trace w)
    ++ [ClientNew (ip_address p) (port p) 0 (application_uuid i)] /\
  last (trace (final r)) = Some (EPrint [SStr "Cannot connect to host"; SExn e]).
Proof.
  intros Hi Hs Ho r. subst r. rewrite (connect_refused env w i p e Hi Hs Ho).
  world_fields. rewrite network_calls_app. repeat split; try assumption.
  rewrite !app_assoc. apply last_snoc.
Qed.

Lemma connect_swallows_failure_witness :
  let r := DMX_MVR_X_Client.connect unreachable stranded_world in
  result r = Ret tt /\
  client_instance (final r) = client_instance stranded_world /\
  network_calls (trace (final r)) =
    network_calls (trace stranded_world)
    ++ [ClientNew "192.168.1.20" 5568 0 "00000000-0000-4000-8000-000000000000"].
Proof.
  destruct (connect_swallows_failure unreachable stranded_world
              {| client := None; selected_client := Some peer1;
                 application_uuid := "00000000-0000-4000-8000-000000000000" |}
              peer1 (External "ConnectionRefusedError"))
    as (H1 & H2 & H3 & _).
  - vm_compute. reflexivity.
  - reflexivity.
  - vm_compute. reflexivity.
  - cbv zeta. split; [exact H1 |]. split; [exact H2 | exact H3].
Defined.

(** ** [join] towards a peer that cannot be reached *)

(** C9: when the transport to the selected peer cannot be constructed,
    [connect] prints the error and leaves [client] at [None]; [join] then
    calls [join_mvr] on that [None] and ends with an attribute error, not
    with a report of the failed connection.  The fresh instance stays
    behind. *)
Theorem join_unreachable_raises_attribute_error
    (env : Env) (peer : Peer) (w : World) (e : Exn) :
  outcome env (steps w)
    (ClientNew (ip_address peer) (port peer) 0 (station_uuid_read env w))
    = Some e ->
  DMX_MVR_X_Client.join env peer w =
    (Raise (AttributeError "NoneType" "join_mvr"),
     set_client_instance
       (Some {| client := None; selected_client := Some peer;
                application_uuid := station_uuid_read env w |})
       (set_trace
          (trace w ++ attempt_events peer (station_uuid_read env w) (Some e)
           ++ [EPrint [SStr "Cannot connect to host"; SExn e]])
          (set_steps (S (steps w)) (set_draws (S (draws w)) w)))).
Proof.
  intros Ho. open_world w. unfold station_uuid_read in *. cbn in Ho |- *.
  client_unfold. py_go.
  destruct (pf !! "application_uuid"); py_go; rewrite Ho; py_go; norm_trace;
    reflexivity.
Qed.

Lemma join_unreachable_raises_attribute_error_witness :
  result (DMX_MVR_X_Client.join unreachable peer1 fresh_world)
  = Raise (AttributeError "NoneType" "join_mvr").
Proof.
  rewrite (join_unreachable_raises_attribute_error unreachable peer1 fresh_world
             (External "ConnectionRefusedError")).
  - reflexivity.
  - reflexivity.
Defined.

(** ** [request_file] of the client *)

Lemma request_file_returns (env : Env) (path : string) (commit : Commit) (w : World) :
  result (DMX_MVR_X_Client.request_file env path commit w) = Ret tt.
Proof.
  open_world w. client_unfold.
  destruct ci as [[[t|] [p|] u]|]; py_cases; reflexivity.
Qed.

Lemma request_file_idle (env : Env) (path : string) (commit : Commit) (w : World) :
  (client_instance w ≫= client) = None ->
  DMX_MVR_X_Client.request_file env path commit w = (Ret tt, w).
Proof.
  intros H. open_world w. client_unfold.
  destruct ci as [[[t|] s u]|]; cbn in H; try discriminate; reflexivity.
Qed.


(** C5, the claim as stated fails: without any client instance
    [request_file] does not fail; it returns normally and leaves the world
    as it was. *)
Lemma request_file_without_session_returns :
  client_instance fresh_world = None /\
  DMX_MVR_X_Client.request_file calm "/opt/dmx" commit1 fresh_world
  = (Ret tt, fresh_world).
Proof. split; reflexivity. Qed.

(** C5, amended: [request_file] never fails towards its caller.  Without
    a client instance, or with an instance that holds no transport, it
    returns without any effect: no error, no transfer.  With a transport
    it first connects again to the selected peer.  If the new transport
    is constructed and started, it takes the place of the one held and
    is handed the commit and its local path; if the constructor raises,
    or no peer is selected, the error is printed and the transport held
    is handed them.  "Requesting file" is logged when the transport's
    [request_file] returns; when it raises, or when [start] raises, the
    error is printed as "problem requesting file" and not raised.  There
    is no notion of a joined session beyond the presence of the
    transport. *)
Theorem request_file_silent_without_transport
    (env : Env) (path : string) (commit : Commit) (w : World) :
  let r := DMX_MVR_X_Client.request_file env path commit w in
  let target := DMX_MVR_X_Client.request_path path commit in
  result r = Ret tt /\
  ((client_instance w ≫= client) = None -> r = (Ret tt, w)) /\
  (forall i t p,
     client_instance w = Some i -> client i = Some t ->
     selected_client i = Some p ->
     outcome env (steps w)
       (ClientNew (ip_address p) (port p) 0 (application_uuid i)) = None ->
     outcome env (S (steps w)) (ClientCall (steps w) start) = None ->
     r = (Ret tt,
          set_client_instance (Some (with_transport (steps w) i))
            (advanced 3
               (reconnect_events p (application_uuid i) (steps w)
                ++ request_events (steps w) commit target
                     (outcome env (S (S (steps w)))
                        (ClientCall (steps w)
                           (transport_request_file commit target))))
               w))) /\
  (forall i t p e,
     client_instance w = Some i -> client i = Some t ->
     selected_client i = Some p ->
     outcome env (steps w)
       (ClientNew (ip_address p) (port p) 0 (application_uuid i)) = Some e ->
     r = (Ret tt,
          advanced 2
            (refused_events p (application_uuid i) e
             ++ request_events t commit target
                  (outcome env (S (steps w))
                     (ClientCall t (transport_request_file commit target))))
            w)) /\
  (forall i t p e,
     client_instance w = Some i -> client i = Some t ->
     selected_client i = Some p ->
     outcome env (steps w)
       (ClientNew (ip_address p) (port p) 0 (application_uuid i)) = None ->
     outcome env (S (steps w)) (ClientCall (steps w) start) = Some e ->
     r = (Ret tt,
          set_client_instance (Some (with_transport (steps w) i))
            (advanced 2
               (attempt_events p (application_uuid i) None
                ++ [ECall (ClientCall (steps w) start) (Some e);
                    EPrint [SStr "problem requesting file"; SExn e]])
               w))) /\
  (forall i t,
     client_instance w = Some i -> client i = Some t ->
     selected_client i = None ->
     r = (Ret tt,
          advanced 1
            (no_peer_events
             ++ request_events t commit target
                  (outcome env (steps w)
                     (ClientCall t (transport_request_file commit target))))
            w)).
Proof.
  intros r target. subst r target.
  split; [apply request_file_returns |].
  split; [apply request_file_idle |].
  split; [intros i t p; apply request_file_reconnected |].
  split; [intros i t p e; apply request_file_refused |].
  split; [intros i t p e; apply request_file_start_fails |].
  intros i t. apply request_file_no_peer.
Qed.

Lemma request_file_silent_without_transport_witness :
  DMX_MVR_X_Client.request_file unreachable "/opt/dmx" commit1 stranded_world
  = (Ret tt, stranded_world)
  /\
  DMX_MVR_X_Client.request_file calm "/opt/dmx" commit1 joined_world
  = (Ret tt,
     set_client_instance
       (Some {| client := Some 5%nat; selected_client := Some peer1;
                application_uuid := "00000000-0000-4000-8000-000000000000" |})
       (advanced 3
          (reconnect_events peer1 "00000000-0000-4000-8000-000000000000" 5
           ++ request_events 5 commit1 "/opt/dmx/assets/mvrs/c1.mvr" None)
          joined_world)).
Proof.
  destruct (request_file_silent_without_transport unreachable "/opt/dmx" commit1
              stranded_world) as (_ & H2 & _).
  destruct (request_file_silent_without_transport calm "/opt/dmx" commit1
              joined_world) as (_ & _ & H3 & _).
  split; [apply H2; reflexivity |].
  exact (H3 {| client := Some 0%nat; selected_client := Some peer1;
               application_uuid := "00000000-0000-4000-8000-000000000000" |}
            0%nat peer1 eq_refl eq_refl eq_refl eq_refl eq_refl).
Defined.

(** ** [leave] *)

Lemma leave_without_instance (env : Env) (w : World) :
  client_instance w = None -> DMX_MVR_X_Client.leave env w = (Ret tt, w).
Proof. intros H. open_world w. reflexivity. Qed.

Lemma leave_without_transport (env : Env) (w : World) (i : ClientInstance) :
  client_instance w = Some i -> client i = None ->
  DMX_MVR_X_Client.leave env w =
    (Ret tt, set_trace (trace w ++ [ELogInfo "Disabling MVR"])
               (set_client_instance None w)).
Proof.
  intros Hi Hc. open_world w. destruct i as [c s u]. cbn in Hc. subst.
  reflexivity.
Qed.

Lemma leave_returns (env : Env) (w : World) :
  transport_total env -> result (DMX_MVR_X_Client.leave env w) = Ret tt.
Proof.
  intros Ht. open_world w. client_unfold.
  destruct ci as [[[t|] [p|] u]|]; py_go; try reflexivity.
  - destruct (outcome env st (ClientNew _ _ _ _)) eqn:E1;
      repeat (py_go; rewrite ?Ht); reflexivity.
  - repeat (py_go; rewrite ?Ht); reflexivity.
Qed.

Lemma leave_disconnects (env : Env) (w : World) :
  result (DMX_MVR_X_Client.leave env w) = Ret tt ->
  client_instance (final (DMX_MVR_X_Client.leave env w)) = None.
Proof.
  open_world w. client_unfold.
  destruct ci as [[[t|] [p|] u]|]; py_cases; intros H;
    try discriminate H; reflexivity.
Qed.

Lemma leave_sends_leave (env : Env) (w : World) :
  result (DMX_MVR_X_Client.leave env w) = Ret tt ->
  (client_instance w ≫= client) <> None ->
  exists pre t,
    trace (final (DMX_MVR_X_Client.leave env w)) =
      trace w ++ pre
      ++ [ECall (ClientCall t leave_mvr) None; ESleep 300;
          ECall (ClientCall t stop) None; ELogInfo "Disabling MVR"].
Proof.
  open_world w. client_unfold.
  destruct ci as [[[t|] [p|] u]|]; py_cases; intros H Hc;
    try discriminate H; try (cbn in Hc; congruence); norm_trace.
  - eexists [_;_;_], t. reflexivity.
  - eexists [_;_;_;_], st. reflexivity.
  - eexists [_], t. reflexivity.
Qed.

(** C7, the claim as stated fails: an instance can exist without a
    transport (a join towards an unreachable peer leaves one behind);
    [leave] on it sends no LEAVE and tears nothing down, it only drops the
    instance. *)
Lemma leave_of_stranded_instance_sends_nothing :
  client_instance stranded_world <> None /\
  network_calls (trace (final (DMX_MVR_X_Client.leave calm stranded_world)))
  = network_calls (trace stranded_world).
Proof. split; [vm_compute; discriminate | vm_compute; reflexivity]. Qed.

(** C7, amended: [leave] is idempotent.  Without an instance it changes
    nothing.  With an instance that holds no transport it sends nothing
    and only drops the instance.  With an instance that holds a transport
    it first connects again to the selected peer; then (with transport
    methods that return) LEAVE, the wait of 0.3 s and [stop] go to the new
    transport when it could be constructed, the one held before being
    dropped without a [stop], and to the transport held when the
    constructor raised or no peer is selected; the instance is dropped.
    Whenever [leave] returns (it does when the methods of the transport
    return) no instance is left, so a second [leave] changes nothing. *)
Theorem leave_is_idempotent (env : Env) (w : World) :
  let r := DMX_MVR_X_Client.leave env w in
  (client_instance w = None -> r = (Ret tt, w)) /\
  (forall i, client_instance w = Some i -> client i = None ->
     r = (Ret tt, set_trace (trace w ++ [ELogInfo "Disabling MVR"])
                    (set_client_instance None w))) /\
  (transport_total env -> result r = Ret tt) /\
  (result r = Ret tt ->
     client_instance (final r) = None /\
     DMX_MVR_X_Client.leave env (final r) = (Ret tt, final r)) /\
  (forall i t p,
     transport_total env ->
     client_instance w = Some i -> client i = Some t ->
     selected_client i = Some p ->
     outcome env (steps w)
       (ClientNew (ip_address p) (port p) 0 (application_uuid i)) = None ->
     r = (Ret tt,
          set_client_instance None
            (advanced 4
               (reconnect_events p (application_uuid i) (steps w)
                ++ leave_events (steps w))
               w))) /\
  (forall i t p e,
     transport_total env ->
     client_instance w = Some i -> client i = Some t ->
     selected_client i = Some p ->
     outcome env (steps w)
       (ClientNew (ip_address p) (port p) 0 (application_uuid i)) = Some e ->
     r = (Ret tt,
          set_client_instance None
            (advanced 3
               (refused_events p (application_uuid i) e ++ leave_events t) w))) /\
  (forall i t,
     transport_total env ->
     client_instance w = Some i -> client i = Some t ->
     selected_client i = None ->
     r = (Ret tt,
          set_client_instance None
            (advanced 2 (no_peer_events ++ leave_events t) w))).
Proof.
  intros r. subst r.
  split; [apply leave_without_instance |].
  split; [apply leave_without_transport |].
  split; [apply leave_returns |].
  split.
  { intros H. pose proof (leave_disconnects env w H) as Hd.
    split; [exact Hd | apply leave_without_instance; exact Hd]. }
  split; [intros i t p; apply leave_reconnected |].
  split; [intros i t p e; apply leave_refused |].
  intros i t. apply leave_no_peer.
Qed.

Lemma leave_is_idempotent_witness :
  let r := DMX_MVR_X_Client.leave calm joined_world in
  r = (Ret tt,
       set_client_instance None
         (advanced 4
            (reconnect_events peer1 "00000000-0000-4000-8000-000000000000" 5
             ++ leave_events 5)
            joined_world)) /\
  client_instance (final r) = None /\
  DMX_MVR_X_Client.leave calm (final r) = (Ret tt, final r) /\
  DMX_MVR_X_Client.leave calm fresh_world = (Ret tt, fresh_world) /\
  DMX_MVR_X_Client.leave unreachable stranded_world =
    (Ret tt, set_trace (trace stranded_world ++ [ELogInfo "Disabling MVR"])
               (set_client_instance None stranded_world)).
Proof.
  cbv zeta.
  destruct (leave_is_idempotent calm joined_world) as (_ & _ & H3 & H4 & H5 & _).
  destruct (leave_is_idempotent calm fresh_world) as (F1 & _).
  destruct (leave_is_idempotent unreachable stranded_world) as (_ & S2 & _).
  assert (transport_total calm) as Ht by (intros n t m; reflexivity).
  split.
  { exact (H5 {| client := Some 0%nat; selected_client := Some peer1;
                 application_uuid := "00000000-0000-4000-8000-000000000000" |}
              0%nat peer1 Ht eq_refl eq_refl eq_refl eq_refl). }
  split; [exact (proj1 (H4 (H3 Ht))) |].
  split; [exact (proj2 (H4 (H3 Ht))) |].
  split; [apply F1; reflexivity |].
  apply (S2 {| client := None; selected_client := Some peer1;
               application_uuid := "00000000-0000-4000-8000-000000000000" |});
    reflexivity.
Defined.

(** ** [enable] of the server *)

Lemma enable_when_enabled (env : Env) (w : World) :
  server_instance w <> None -> DMX_MVR_X_Server.enable env w = (Ret tt, w).
Proof.
  intros H. open_world w. destruct si; [reflexivity | congruence].
Qed.

Lemma enable_leaves_instance (env : Env) (w : World) :
  server_instance (final (DMX_MVR_X_Server.enable env w)) <> None.
Proof.
  open_world w. server_unfold. destruct si; py_cases; discriminate.
Qed.

(** C10: [enable] keeps the singleton.  When a server instance exists the
    call returns at once and the world is the one before: nothing is
    constructed, nothing is started.  Every [enable] leaves an instance
    behind, so a second [enable] right after a first one changes
    nothing. *)
Theorem enable_is_idempotent (env : Env) (w : World) :
  (server_instance w <> None -> DMX_MVR_X_Server.enable env w = (Ret tt, w)) /\
  server_instance (final (DMX_MVR_X_Server.enable env w)) <> None /\
  DMX_MVR_X_Server.enable env (final (DMX_MVR_X_Server.enable env w))
  = (Ret tt, final (DMX_MVR_X_Server.enable env w)).
Proof.
  split; [apply enable_when_enabled |].
  split; [apply enable_leaves_instance |].
  apply enable_when_enabled, enable_leaves_instance.
Qed.

Lemma enable_is_idempotent_witness :
  DMX_MVR_X_Server.enable calm joined_world = (Ret tt, joined_world).
Proof.
  assert (server_instance joined_world <> None) as H
    by (vm_compute; discriminate).
  exact (proj1 (enable_is_idempotent calm joined_world) H).
Defined.

(** ** The local path of a transfer *)

Lemma string_app_cons (x : ascii) (a b : string) :
  String x a +:+ b = String x (a +:+ b).
Proof. reflexivity. Qed.








Lemma server_request_file_raises (env : Env) (path : string) (commit : Commit)
    (w : World) (i : ServerInstance) :
  server_instance w = Some i ->
  DMX_MVR_X_Server.request_file env path commit w
  = (Raise (AttributeError "DMX_MVR_X_Server" "DMX_MVR_X_Server"), w).
Proof. intros H. open_world w. reflexivity. Qed.






(** ** The station identifier along a run *)

Section Identity.

Variable env : Env.
Variable v : string.

Lemma keeps_safe {A} (m : M A) (Q : A -> Prop) : keeps v m Q -> safe v m.
Proof. intros H w Hw. split; [apply (H w Hw) | trivial]. Qed.

Lemma keeps_ret {A} (a : A) (Q : A -> Prop) : Q a -> keeps v (ret a) Q.
Proof. intros H w Hw. split; [exact Hw |]. intros b [= <-]. exact H. Qed.

Lemma keeps_raise {A} (e : Exn) (Q : A -> Prop) : keeps v (raise e) Q.
Proof. intros w Hw. split; [exact Hw |]. intros b [=]. Qed.

Lemma keeps_bind {A B} (m : M A) (k : A -> M B) (Q : A -> Prop) (R : B -> Prop) :
  keeps v m Q -> (forall a, Q a -> keeps v (k a) R) -> keeps v (bind m k) R.
Proof.
  intros Hm Hk w Hw. destruct (Hm w Hw) as [H1 H2].
  unfold bind, final, result in *. destruct (m w) as [[a|e] w']; cbn in *.
  - apply (Hk a (H2 a eq_refl) w' H1).
  - split; [exact H1 | intros b [=]].
Qed.

Lemma safe_bind {A B} (m : M A) (k : A -> M B) :
  safe v m -> (forall a, safe v (k a)) -> safe v (bind m k).
Proof.
  intros Hm Hk. apply (keeps_bind m k (fun _ => True)); [exact Hm |].
  intros a _. apply Hk.
Qed.

Lemma keeps_try {A} (body : M A) (h : Exn -> M A) (Q : A -> Prop) :
  keeps v body Q -> (forall e, keeps v (h e) Q) -> keeps v (try_except body h) Q.
Proof.
  intros Hb Hh w Hw. destruct (Hb w Hw) as [H1 H2].
  unfold try_except, final, result in *. destruct (body w) as [[a|e] w']; cbn in *.
  - split; [exact H1 | exact H2].
  - apply (Hh e w' H1).
Qed.

Lemma safe_emit (e : Event) : safe v (emit e).
Proof. intros w Hw. split; [exact Hw | trivial]. Qed.

Lemma safe_call (c : Call) : keeps v (call env c) (fun _ => True).
Proof.
  intros w Hw. split; [| trivial].
  unfold call, final. destruct (outcome env (steps w) c); exact Hw.
Qed.

Lemma keeps_read_client :
  keeps v (read client_instance)
    (fun o => forall i, o = Some i -> application_uuid i = v).
Proof.
  intros w Hw. split; [exact Hw |]. intros o [= <-]. apply Hw.
Qed.

Lemma keeps_read_server :
  keeps v (read server_instance)
    (fun o => forall i, o = Some i -> server_application_uuid i = v).
Proof.
  intros w Hw. split; [exact Hw |]. intros o [= <-]. apply Hw.
Qed.

Lemma keeps_getattr_opt {A} (o : option A) (attr : string) (Q : A -> Prop) :
  (forall a, o = Some a -> Q a) -> keeps v (getattr_opt o attr) Q.
Proof.
  intros H. destruct o as [a|]; [apply keeps_ret; auto | apply keeps_raise].
Qed.

Lemma safe_set_client (o : option ClientInstance) :
  (forall i, o = Some i -> application_uuid i = v) ->
  safe v (modify (set_client_instance o)).
Proof.
  intros H w (Hp & Hc & Hs). split; [| trivial].
  split; [exact Hp |]. split; [exact H | exact Hs].
Qed.

Lemma safe_set_server (o : option ServerInstance) :
  (forall i, o = Some i -> server_application_uuid i = v) ->
  safe v (modify (set_server_instance o)).
Proof.
  intros H w (Hp & Hc & Hs). split; [| trivial].
  split; [exact Hp |]. split; [exact Hc | exact H].
Qed.

Lemma safe_set_enabled (b : bool) : safe v (modify (set_mvrx_enabled b)).
Proof. intros w Hw. split; [exact Hw | trivial]. Qed.

Lemma keeps_read_application_uuid :
  keeps v (read_application_uuid env) (fun u => u = v).
Proof.
  intros w Hw. unfold read_application_uuid, fresh_uuid, bind, read, ret,
    final, result. cbn. split; [exact Hw |].
  destruct Hw as (Hp & _). rewrite Hp. intros a [= <-]. reflexivity.
Qed.

Lemma safe_subscript (data : Message) (k : string) : safe v (subscript data k).
Proof.
  unfold subscript. destruct (data !! k); [apply keeps_ret; trivial | apply keeps_raise].
Qed.

Lemma safe_ret {A} (a : A) : safe v (ret a).
Proof. apply keeps_ret. exact I. Qed.

Lemma safe_raise {A} (e : Exn) : safe v (@raise A e).
Proof. apply keeps_raise. Qed.

Lemma safe_try {A} (body : M A) (h : Exn -> M A) :
  safe v body -> (forall e, safe v (h e)) -> safe v (try_except body h).
Proof. apply keeps_try. Qed.

Lemma safe_read {A} (f : World -> A) : safe v (read f).
Proof. intros w Hw. split; [exact Hw | trivial]. Qed.

Lemma safe_getattr_opt {A} (o : option A) (attr : string) :
  safe v (getattr_opt o attr).
Proof. apply keeps_getattr_opt. trivial. Qed.

Ltac safe_step :=
  unfold print, log_info, log_error, sleep;
  match goal with
  | |- safe v (bind _ _) => apply safe_bind; [| intros]
  | |- safe v (try_except _ _) => apply safe_try; [| intros]
  | |- safe v (ret _) => apply safe_ret
  | |- safe v (raise _) => apply safe_raise
  | |- safe v (emit _) => apply safe_emit
  | |- safe v (call _ _) => apply safe_call
  | |- safe v (subscript _ _) => apply safe_subscript
  | |- safe v (read _) => apply safe_read
  | |- safe v (getattr_opt _ _) => apply safe_getattr_opt
  | |- safe v (modify (set_mvrx_enabled _)) => apply safe_set_enabled
  | |- safe v (modify (set_client_instance None)) =>
      apply safe_set_client; discriminate
  | |- safe v (modify (set_server_instance None)) =>
      apply safe_set_server; discriminate
  | |- safe v (if ?b then _ else _) => destruct b
  | |- safe v (match ?x with _ => _ end) => destruct x
  | |- safe v (let _ := _ in _) => cbv zeta
  | H : safe v ?m |- safe v ?m => exact H
  end.

Ltac safe_auto := repeat safe_step.

Lemma keeps_client_attr {A} (f : ClientInstance -> A) (attr : string) :
  keeps v (DMX_MVR_X_Client.client_attr f attr)
    (fun x => exists i, x = f i /\ application_uuid i = v).
Proof.
  unfold DMX_MVR_X_Client.client_attr.
  eapply keeps_bind; [apply keeps_read_client |]. intros o Ho.
  eapply keeps_bind; [apply (keeps_getattr_opt o attr _ Ho) |].
  intros i Hi. apply keeps_ret. eauto.
Qed.

Lemma safe_client_attr {A} (f : ClientInstance -> A) (attr : string) :
  safe v (DMX_MVR_X_Client.client_attr f attr).
Proof. eapply keeps_safe, keeps_client_attr. Qed.

Lemma safe_client_method (name : string) (m : ClientMethod) :
  safe v (DMX_MVR_X_Client.client_method env name m).
Proof.
  unfold DMX_MVR_X_Client.client_method.
  apply safe_bind; [apply safe_client_attr | intros]. safe_auto.
Qed.

Lemma safe_client_host (h : HostCall) : safe v (DMX_MVR_X_Client.client_host env h).
Proof.
  unfold DMX_MVR_X_Client.client_host.
  apply safe_bind; [apply safe_client_attr | intros]. safe_auto.
Qed.

Lemma safe_client_set_client (t : nat) :
  safe v (DMX_MVR_X_Client.client_set_client t).
Proof.
  unfold DMX_MVR_X_Client.client_set_client.
  eapply keeps_bind; [apply keeps_read_client |]. intros o Ho.
  eapply keeps_bind; [apply (keeps_getattr_opt o "client" _ Ho) |].
  intros i Hi. apply safe_set_client. intros j [= <-]. exact Hi.
Qed.

Lemma safe_client_set_selected (p : Peer) :
  safe v (DMX_MVR_X_Client.client_set_selected p).
Proof.
  unfold DMX_MVR_X_Client.client_set_selected.
  eapply keeps_bind; [apply keeps_read_client |]. intros o Ho.
  eapply keeps_bind; [apply (keeps_getattr_opt o "selected_client" _ Ho) |].
  intros i Hi. apply safe_set_client. intros j [= <-]. exact Hi.
Qed.

Ltac safe_client :=
  repeat first
    [ apply safe_client_attr | apply safe_client_method | apply safe_client_host
    | apply safe_client_set_client | apply safe_client_set_selected
    | safe_step ].

Lemma safe_client_callback (data : Message) :
  safe v (DMX_MVR_X_Client.callback env data).
Proof. unfold DMX_MVR_X_Client.callback. safe_client. Qed.

Lemma safe_client_connect : safe v (DMX_MVR_X_Client.connect env).
Proof. unfold DMX_MVR_X_Client.connect. safe_client. Qed.

Lemma safe_client_request_file (path : string) (c : Commit) :
  safe v (DMX_MVR_X_Client.request_file env path c).
Proof.
  pose proof safe_client_connect.
  unfold DMX_MVR_X_Client.request_file. safe_client.
Qed.

Lemma safe_client_re_join : safe v (DMX_MVR_X_Client.re_join env).
Proof.
  pose proof safe_client_connect.
  unfold DMX_MVR_X_Client.re_join. safe_client.
Qed.

Lemma safe_client_join (p : Peer) : safe v (DMX_MVR_X_Client.join env p).
Proof.
  pose proof safe_client_connect.
  unfold DMX_MVR_X_Client.join, DMX_MVR_X_Client.__init__.
  eapply keeps_bind.
  { eapply keeps_bind; [apply keeps_read_application_uuid |].
    intros u Hu. apply (keeps_ret _ (fun i => application_uuid i = v)). exact Hu. }
  intros i Hi. apply safe_bind.
  { apply safe_set_client. intros j [= <-]. exact Hi. }
  intros. safe_client.
Qed.

Lemma safe_client_disable : safe v (DMX_MVR_X_Client.disable env).
Proof. unfold DMX_MVR_X_Client.disable. safe_client. Qed.

Lemma safe_client_leave : safe v (DMX_MVR_X_Client.leave env).
Proof.
  pose proof safe_client_connect.
  unfold DMX_MVR_X_Client.leave. safe_client.
Qed.

Lemma safe_server_attr {A} (f : ServerInstance -> A) (attr : string) :
  safe v (DMX_MVR_X_Server.server_attr f attr).
Proof. unfold DMX_MVR_X_Server.server_attr. safe_auto. Qed.

Lemma safe_server_method (name : string) (m : ServerMethod) :
  safe v (DMX_MVR_X_Server.server_method env name m).
Proof.
  unfold DMX_MVR_X_Server.server_method.
  apply safe_bind; [apply safe_server_attr | intros]. safe_auto.
Qed.

Lemma safe_server_host (h : HostCall) : safe v (DMX_MVR_X_Server.server_host env h).
Proof.
  unfold DMX_MVR_X_Server.server_host.
  apply safe_bind; [apply safe_server_attr | intros]. safe_auto.
Qed.

Lemma safe_server_set_server (t : nat) :
  safe v (DMX_MVR_X_Server.server_set_server t).
Proof.
  unfold DMX_MVR_X_Server.server_set_server.
  eapply keeps_bind; [apply keeps_read_server |]. intros o Ho.
  eapply keeps_bind; [apply (keeps_getattr_opt o "server" _ Ho) |].
  intros i Hi. apply safe_set_server. intros j [= <-]. exact Hi.
Qed.

Ltac safe_server :=
  repeat first
    [ apply safe_server_attr | apply safe_server_method | apply safe_server_host
    | apply safe_server_set_server | safe_step ].

Lemma safe_server_callback (data : Message) (conn : ConnData) :
  safe v (DMX_MVR_X_Server.callback env data conn).
Proof.
  unfold DMX_MVR_X_Server.callback. destruct conn as [[a p]]. cbn [addr].
  safe_server.
Qed.

Lemma safe_server_request_file (path : string) (c : Commit) :
  safe v (DMX_MVR_X_Server.request_file env path c).
Proof.
  unfold DMX_MVR_X_Server.request_file, DMX_MVR_X_Server.instance_attr_truth.
  safe_server.
Qed.

Lemma safe_server_enable : safe v (DMX_MVR_X_Server.enable env).
Proof.
  unfold DMX_MVR_X_Server.enable, DMX_MVR_X_Server.__init__.
  apply safe_bind; [apply safe_read |]. intros [i|]; [apply safe_ret |].
  eapply keeps_bind.
  { eapply keeps_bind; [apply keeps_read_application_uuid |].
    intros u Hu.
    apply (keeps_ret _ (fun i => server_application_uuid i = v)). exact Hu. }
  intros i Hi. apply safe_bind.
  { apply safe_set_server. intros j [= <-]. exact Hi. }
  intros. safe_server.
Qed.

Lemma safe_server_get_port : safe v (DMX_MVR_X_Server.get_port env).
Proof. unfold DMX_MVR_X_Server.get_port. safe_server. Qed.

Lemma safe_server_disable : safe v (DMX_MVR_X_Server.disable env).
Proof. unfold DMX_MVR_X_Server.disable. safe_server. Qed.

Lemma exec_keeps_identifier (path : string) (o : Op) : safe v (exec env path o).
Proof.
  destruct o; cbn [exec].
  - apply safe_client_callback.
  - apply safe_client_request_file.
  - apply safe_client_re_join.
  - apply safe_client_connect.
  - apply safe_client_join.
  - apply safe_client_disable.
  - apply safe_client_leave.
  - apply safe_server_callback.
  - apply safe_server_request_file.
  - apply safe_server_enable.
  - apply safe_bind; [apply safe_server_get_port | intros; apply safe_ret].
  - apply safe_server_disable.
Qed.

Lemma run_keeps_identifier (path : string) (ops : list Op) (w : World) :
  uuid_inv v w -> uuid_inv v (run env path ops w).
Proof.
  revert w. induction ops as [|o ops IH]; intros w Hw; [exact Hw |].
  cbn [run fold_left]. apply IH. apply (exec_keeps_identifier path o w Hw).
Qed.

End Identity.

(** C1, the claim as stated fails: with no identifier in the preferences
    every construction draws its own.  After a join and an enable two
    identifiers have been generated, and the client and the server of the
    same process carry different ones. *)
Lemma station_uuid_differs_between_instances :
  prefs fresh_world !! "application_uuid" = None /\
  draws joined_world = 2%nat /\
  (application_uuid <$> client_instance joined_world)
  = Some "00000000-0000-4000-8000-000000000000" /\
  (server_application_uuid <$> server_instance joined_world)
  = Some "00000000-0000-4000-8000-000000000001".
Proof. vm_compute. repeat split; reflexivity. Qed.

(** C1, amended: every construction of a client or of a server draws a
    fresh UUID4 and then reads the preference [application_uuid].  When
    the preferences hold an identifier, each construction yields that
    stored value, so along any run of the module every live client and
    server instance carries it, and the module never changes the
    preference.  When they hold none, the construction yields the UUID it
    has just drawn, which is never the all-zero identifier. *)
Theorem station_uuid_read_from_preferences (env : Env) (path : string) (w : World) :
  DMX_MVR_X_Client.__init__ env w =
    (Ret {| client := None; selected_client := None;
            application_uuid := station_uuid_read env w |},
     set_draws (S (draws w)) w) /\
  DMX_MVR_X_Server.__init__ env w =
    (Ret {| server := None;
            server_application_uuid := station_uuid_read env w |},
     set_draws (S (draws w)) w) /\
  (prefs w !! "application_uuid" = None ->
   station_uuid_read env w = str_uuid (uuid4 (urandom env (draws w))) /\
   station_uuid_read env w <> nil_uuid) /\
  (forall v ops,
     prefs w !! "application_uuid" = Some v ->
     client_instance w = None -> server_instance w = None ->
     station_uuid_read env w = v /\ uuid_inv v (run env path ops w)).
Proof.
  split; [| split; [| split]].
  - unfold DMX_MVR_X_Client.__init__, read_application_uuid, fresh_uuid,
      station_uuid_read. py_go.
    destruct (prefs w !! "application_uuid"); reflexivity.
  - unfold DMX_MVR_X_Server.__init__, read_application_uuid, fresh_uuid,
      station_uuid_read. py_go.
    destruct (prefs w !! "application_uuid"); reflexivity.
  - intros H. unfold station_uuid_read. rewrite H.
    split; [reflexivity | apply str_uuid4_not_nil].
  - intros v ops Hp Hc Hs. split.
    + unfold station_uuid_read. rewrite Hp. reflexivity.
    + apply run_keeps_identifier. unfold uuid_inv. rewrite Hc, Hs.
      split; [exact Hp |]. split; discriminate.
Qed.

Lemma station_uuid_read_from_preferences_witness :
  station_uuid_read calm fresh_world <> nil_uuid /\
  uuid_inv "3F2504E0-4F89-11D3-9A0C-0305E82C3301"
    (run calm "/opt/dmx"
       [client_join peer1; server_enable; client_leave; client_join peer1]
       configured_world).
Proof.
  split.
  - apply (station_uuid_read_from_preferences calm "/opt/dmx" fresh_world).
    reflexivity.
  - apply (station_uuid_read_from_preferences calm "/opt/dmx" configured_world);
      reflexivity.
Defined.

(** * Further properties of the module *)

(** ** Frames: what a piece of module code can change *)

Section Frame.

Variable env : Env.
Variable R : World -> World -> Prop.
Variable allowed : Event -> Prop.

Hypothesis R_refl : forall w, R w w.
Hypothesis R_trans : forall a b c, R a b -> R b c -> R a c.
Hypothesis R_emit : forall e w, allowed e -> R w (set_trace (trace w ++ [e]) w).
Hypothesis R_call : forall c r w,
  allowed (ECall c r) ->
  R w (set_trace (trace w ++ [ECall c r]) (set_steps (S (steps w)) w)).
Hypothesis R_draws : forall w, R w (set_draws (S (draws w)) w).
Hypothesis R_client : forall i w, R w (set_client_instance i w).
Hypothesis R_server : forall i w, R w (set_server_instance i w).
Hypothesis R_off : forall w, R w (set_mvrx_enabled false w).

Hypothesis allowed_print : forall a, allowed (EPrint a).
Hypothesis allowed_info : forall s, allowed (ELogInfo s).
Hypothesis allowed_error : forall s, allowed (ELogError s).
Hypothesis allowed_sleep : forall z, allowed (ESleep z).
Hypothesis allowed_host : forall h r, allowed (ECall (Host h) r).
Hypothesis allowed_client_new :
  forall ip p t u r, allowed (ECall (ClientNew ip p t u) r).
Hypothesis allowed_start : forall t r, allowed (ECall (ClientCall t start) r).
Hypothesis allowed_join_mvr : forall t r, allowed (ECall (ClientCall t join_mvr) r).
Hypothesis allowed_leave_mvr : forall t r, allowed (ECall (ClientCall t leave_mvr) r).
Hypothesis allowed_stop : forall t r, allowed (ECall (ClientCall t stop) r).
Hypothesis allowed_request :
  forall t c p r, allowed (ECall (ClientCall t (transport_request_file c p)) r).
Hypothesis allowed_server_new : forall u r, allowed (ECall (ServerNew u) r).
Hypothesis allowed_listener_start :
  forall t r, allowed (ECall (ServerCall t listener_start) r).
Hypothesis allowed_listener_stop :
  forall t r, allowed (ECall (ServerCall t listener_stop) r).
Hypothesis allowed_listener_get_port :
  forall t r, allowed (ECall (ServerCall t listener_get_port) r).
Hypothesis allowed_listener_request :
  forall t c p r, allowed (ECall (ServerCall t (listener_request_file c p)) r).

Lemma frames_ret {A} (a : A) : frames R (ret a).
Proof. intros w. apply R_refl. Qed.

Lemma frames_raise {A} (e : Exn) : frames R (@raise A e).
Proof. intros w. apply R_refl. Qed.

Lemma frames_read {A} (f : World -> A) : frames R (read f).
Proof. intros w. apply R_refl. Qed.

Lemma frames_getattr_opt {A} (o : option A) (attr : string) :
  frames R (getattr_opt o attr).
Proof. destruct o; [apply frames_ret | apply frames_raise]. Qed.

Lemma frames_subscript (data : Message) (k : string) : frames R (subscript data k).
Proof. unfold subscript. destruct (data !! k); [apply frames_ret | apply frames_raise]. Qed.

Lemma frames_bind {A B} (m : M A) (k : A -> M B) :
  frames R m -> (forall a, frames R (k a)) -> frames R (bind m k).
Proof.
  intros Hm Hk w. specialize (Hm w). unfold bind, final in *.
  destruct (m w) as [[a|e] w']; cbn in *; [| exact Hm].
  apply (R_trans _ _ _ Hm). apply (Hk a w').
Qed.

Lemma frames_try {A} (body : M A) (h : Exn -> M A) :
  frames R body -> (forall e, frames R (h e)) -> frames R (try_except body h).
Proof.
  intros Hb Hh w. specialize (Hb w). unfold try_except, final in *.
  destruct (body w) as [[a|e] w']; cbn in *; [exact Hb |].
  apply (R_trans _ _ _ Hb). apply (Hh e w').
Qed.

Lemma frames_emit (e : Event) : allowed e -> frames R (emit e).
Proof. intros H w. apply R_emit, H. Qed.

Lemma frames_call (c : Call) :
  (forall r, allowed (ECall c r)) -> frames R (call env c).
Proof.
  intros H w. unfold call, final.
  destruct (outcome env (steps w) c) eqn:E; cbn; apply R_call, H.
Qed.

Lemma frames_fresh_uuid : frames R (fresh_uuid env).
Proof. intros w. apply R_draws. Qed.

Ltac frames_call_step :=
  apply frames_call; intros;
  first [ apply allowed_host | apply allowed_client_new | apply allowed_start
        | apply allowed_join_mvr | apply allowed_leave_mvr | apply allowed_stop
        | apply allowed_request | apply allowed_server_new
        | apply allowed_listener_start | apply allowed_listener_stop
        | apply allowed_listener_get_port | apply allowed_listener_request ].

Ltac frames_step :=
  unfold print, log_info, log_error, sleep;
  match goal with
  | H : frames _ ?m |- frames _ ?m => exact H
  | |- frames _ (bind _ _) => apply frames_bind; [| intros]
  | |- frames _ (try_except _ _) => apply frames_try; [| intros]
  | |- frames _ (ret _) => apply frames_ret
  | |- frames _ (raise _) => apply frames_raise
  | |- frames _ (read _) => apply frames_read
  | |- frames _ (getattr_opt _ _) => apply frames_getattr_opt
  | |- frames _ (subscript _ _) => apply frames_subscript
  | |- frames _ (fresh_uuid _) => apply frames_fresh_uuid
  | |- frames _ (emit (EPrint _)) => apply frames_emit, allowed_print
  | |- frames _ (emit (ELogInfo _)) => apply frames_emit, allowed_info
  | |- frames _ (emit (ELogError _)) => apply frames_emit, allowed_error
  | |- frames _ (emit (ESleep _)) => apply frames_emit, allowed_sleep
  | |- frames _ (call _ _) => frames_call_step
  | |- frames _ (modify (set_client_instance _)) => intros ?; apply R_client
  | |- frames _ (modify (set_server_instance _)) => intros ?; apply R_server
  | |- frames _ (modify (set_mvrx_enabled false)) => intros ?; apply R_off
  | |- frames _ (if ?b then _ else _) => destruct b
  | |- frames _ (match ?x with _ => _ end) => destruct x
  | |- frames _ (let _ := _ in _) => cbv zeta
  end.

Ltac frames_client :=
  unfold DMX_MVR_X_Client.client_method, DMX_MVR_X_Client.client_host,
    DMX_MVR_X_Client.client_attr, DMX_MVR_X_Client.client_set_client,
    DMX_MVR_X_Client.client_set_selected, DMX_MVR_X_Client.__init__,
    read_application_uuid;
  repeat frames_step.

Ltac frames_server :=
  unfold DMX_MVR_X_Server.server_method, DMX_MVR_X_Server.server_host,
    DMX_MVR_X_Server.server_attr, DMX_MVR_X_Server.server_set_server,
    DMX_MVR_X_Server.instance_attr_truth, DMX_MVR_X_Server.__init__,
    read_application_uuid;
  repeat frames_step.

Lemma frames_client_callback (data : Message) :
  frames R (DMX_MVR_X_Client.callback env data).
Proof. unfold DMX_MVR_X_Client.callback. frames_client. Qed.

Lemma frames_client_connect : frames R (DMX_MVR_X_Client.connect env).
Proof. unfold DMX_MVR_X_Client.connect. frames_client. Qed.

Lemma frames_client_request_file (path : string) (c : Commit) :
  frames R (DMX_MVR_X_Client.request_file env path c).
Proof.
  pose proof frames_client_connect.
  unfold DMX_MVR_X_Client.request_file. frames_client.
Qed.

Lemma frames_client_re_join : frames R (DMX_MVR_X_Client.re_join env).
Proof.
  pose proof frames_client_connect.
  unfold DMX_MVR_X_Client.re_join. frames_client.
Qed.

Lemma frames_client_join (p : Peer) : frames R (DMX_MVR_X_Client.join env p).
Proof.
  pose proof frames_client_connect.
  unfold DMX_MVR_X_Client.join. frames_client.
Qed.

Lemma frames_client_disable : frames R (DMX_MVR_X_Client.disable env).
Proof. unfold DMX_MVR_X_Client.disable. frames_client. Qed.

Lemma frames_client_leave : frames R (DMX_MVR_X_Client.leave env).
Proof.
  pose proof frames_client_connect.
  unfold DMX_MVR_X_Client.leave. frames_client.
Qed.

Lemma frames_server_callback (data : Message) (conn : ConnData) :
  frames R (DMX_MVR_X_Server.callback env data conn).
Proof.
  unfold DMX_MVR_X_Server.callback. destruct conn as [[a p]]. cbn [addr].
  frames_server.
Qed.

Lemma frames_server_request_file (path : string) (c : Commit) :
  frames R (DMX_MVR_X_Server.request_file env path c).
Proof. unfold DMX_MVR_X_Server.request_file. frames_server. Qed.

Lemma frames_server_enable : frames R (DMX_MVR_X_Server.enable env).
Proof. unfold DMX_MVR_X_Server.enable. frames_server. Qed.

Lemma frames_server_get_port : frames R (DMX_MVR_X_Server.get_port env).
Proof. unfold DMX_MVR_X_Server.get_port. frames_server. Qed.

Lemma frames_server_disable : frames R (DMX_MVR_X_Server.disable env).
Proof. unfold DMX_MVR_X_Server.disable. frames_server. Qed.

Lemma frames_run (path : string) (ops : list Op) :
  (forall o, In o ops -> frames R (exec env path o)) ->
  forall w, R w (run env path ops w).
Proof.
  induction ops as [|o ops IH]; intros H w; [apply R_refl |].
  cbn [run fold_left]. apply (R_trans _ (step env path w o)).
  - apply (H o). left. reflexivity.
  - apply IH. intros o' Ho'. apply H. right. exact Ho'.
Qed.

End Frame.


(** Discharge the side conditions of a frame lemma for a relation that
    compares one field of the world. *)
Ltac frame_field :=
  intros; cbn in *; first [reflexivity | exact I | congruence].

Lemma stop_calls_app (t1 t2 : list Event) :
  stop_calls (t1 ++ t2) = stop_calls t1 ++ stop_calls t2.
Proof. unfold stop_calls. apply omap_app. Qed.

Lemma listener_requests_app (t1 t2 : list Event) :
  listener_requests (t1 ++ t2) = listener_requests t1 ++ listener_requests t2.
Proof. unfold listener_requests. apply omap_app. Qed.

(** The same for a relation that compares a projection of the trace. *)
Ltac frame_trace :=
  intros; cbn [trace set_trace set_steps set_draws set_client_instance
               set_server_instance set_mvrx_enabled] in *;
  rewrite ?host_calls_app, ?network_calls_app, ?stop_calls_app,
    ?listener_requests_app;
  first [ reflexivity | congruence
        | match goal with H : _ = [] |- _ => rewrite H; apply app_nil_r end ].

(** X1: no entry point of the module writes the add-on preferences: after
    any run they are the ones before.  In particular an identifier drawn
    at a construction is never stored. *)
Theorem preferences_never_written
    (env : Env) (path : string) (ops : list Op) (w : World) :
  prefs (run env path ops w) = prefs w.
Proof.
  apply (frames_run env (fun w w' => prefs w' = prefs w)); [frame_field .. |].
  intros o _. destruct o; cbn [exec].
  - apply frames_client_callback with (allowed := fun _ => True); frame_field.
  - apply frames_client_request_file with (allowed := fun _ => True); frame_field.
  - apply frames_client_re_join with (allowed := fun _ => True); frame_field.
  - apply frames_client_connect with (allowed := fun _ => True); frame_field.
  - apply frames_client_join with (allowed := fun _ => True); frame_field.
  - apply frames_client_disable with (allowed := fun _ => True); frame_field.
  - apply frames_client_leave with (allowed := fun _ => True); frame_field.
  - apply frames_server_callback with (allowed := fun _ => True); frame_field.
  - apply frames_server_request_file with (allowed := fun _ => True); frame_field.
  - apply frames_server_enable with (allowed := fun _ => True); frame_field.
  - apply frames_bind; [frame_field .. | | intros; apply frames_ret; frame_field].
    apply frames_server_get_port with (allowed := fun _ => True); frame_field.
  - apply frames_server_disable with (allowed := fun _ => True); frame_field.
Qed.

(** Pick the frame lemma of the entry point at hand. *)
Ltac frames_exec A side :=
  cbn [exec];
  first
    [ apply frames_client_callback with (allowed := A)
    | apply frames_client_request_file with (allowed := A)
    | apply frames_client_re_join with (allowed := A)
    | apply frames_client_connect with (allowed := A)
    | apply frames_client_join with (allowed := A)
    | apply frames_client_disable with (allowed := A)
    | apply frames_client_leave with (allowed := A)
    | apply frames_server_callback with (allowed := A)
    | apply frames_server_request_file with (allowed := A)
    | apply frames_server_enable with (allowed := A)
    | apply frames_server_disable with (allowed := A)
    | apply frames_bind;
      [ .. | apply frames_server_get_port with (allowed := A)
      | intros; apply frames_ret ] ];
  side.

Lemma mvrx_enabled_stays_off (env : Env) (path : string) (ops : list Op) (w : World) :
  mvrx_enabled w = false -> mvrx_enabled (run env path ops w) = false.
Proof.
  apply (frames_run env (fun w w' => mvrx_enabled w = false -> mvrx_enabled w' = false));
    [ tauto | intros a b c; tauto | ].
  intros o _. destruct o;
    frames_exec (fun _ : Event => True) ltac:(intros; cbn in *; tauto).
Qed.

Lemma mvrx_enabled_kept (env : Env) (path : string) (o : Op) (w : World) :
  (forall data, o <> client_callback data) ->
  mvrx_enabled (step env path w o) = mvrx_enabled w.
Proof.
  intros Ho. unfold step. revert w.
  change (frames (fun w w' => mvrx_enabled w' = mvrx_enabled w) (exec env path o)).
  destruct o; try (exfalso; eapply Ho; reflexivity);
    frames_exec (fun _ : Event => True) frame_field.
Qed.

Lemma client_ops_keep_server (env : Env) (path : string) (o : Op) (w : World) :
  is_client_op o = true ->
  server_instance (step env path w o) = server_instance w.
Proof.
  intros Ho. unfold step. revert w.
  change (frames (fun w w' => server_instance w' = server_instance w) (exec env path o)).
  destruct o; try discriminate Ho;
    frames_exec (fun _ : Event => True) frame_field.
Qed.

Lemma server_ops_keep_client (env : Env) (path : string) (o : Op) (w : World) :
  is_client_op o = false ->
  client_instance (step env path w o) = client_instance w.
Proof.
  intros Ho. unfold step. revert w.
  change (frames (fun w w' => client_instance w' = client_instance w) (exec env path o)).
  destruct o; try discriminate Ho;
    frames_exec (fun _ : Event => True) frame_field.
Qed.

Lemma other_ops_draw_nothing (env : Env) (path : string) (o : Op) (w : World) :
  (forall p, o <> client_join p) -> o <> server_enable ->
  draws (step env path w o) = draws w.
Proof.
  intros Hj He. unfold step. revert w.
  change (frames (fun w w' => draws w' = draws w) (exec env path o)).
  destruct o; try (exfalso; eapply Hj; reflexivity); try congruence;
    frames_exec (fun _ : Event => True) frame_field.
Qed.

Lemma join_draws_once (env : Env) (p : Peer) (w : World) :
  draws (final (DMX_MVR_X_Client.join env p w)) = S (draws w).
Proof.
  open_world w. client_unfold. py_go.
  destruct (pf !! "application_uuid"); py_cases; reflexivity.
Qed.

Lemma enable_draws_once (env : Env) (w : World) :
  draws (final (DMX_MVR_X_Server.enable env w))
  = (match server_instance w with Some _ => 0 | None => 1 end + draws w)%nat.
Proof.
  open_world w. server_unfold. destruct si; py_go; [reflexivity |].
  destruct (pf !! "application_uuid"); py_cases; reflexivity.
Qed.

(** X4: an identifier is drawn exactly at the constructions: once by every
    [join], once by an [enable] that finds no server instance, and by no
    other entry point. *)
Theorem uuid_drawn_only_at_construction
    (env : Env) (path : string) (o : Op) (w : World) :
  draws (step env path w o) = (uuid_draws o w + draws w)%nat.
Proof.
  destruct o;
    try (apply other_ops_draw_nothing; [intros p | ]; discriminate).
  - apply join_draws_once.
  - apply enable_draws_once.
Qed.


Lemma host_calls_kept (env : Env) (path : string) (o : Op) (w : World) :
  is_callback o = false ->
  host_calls (trace (step env path w o)) = host_calls (trace w).
Proof.
  intros Ho. unfold step. revert w.
  change (frames (fun w w' => host_calls (trace w') = host_calls (trace w))
            (exec env path o)).
  destruct o; try discriminate Ho;
    frames_exec (fun e : Event => host_calls [e] = []) frame_trace.
Qed.

Lemma stop_calls_kept_by_connect (env : Env) :
  frames (fun w w' => stop_calls (trace w') = stop_calls (trace w))
    (DMX_MVR_X_Client.connect env).
Proof.
  apply frames_client_connect with (allowed := fun e => stop_calls [e] = []);
    frame_trace.
Qed.

(** ** What the entry points leave alone *)

(** X2: the module never switches [mvrx_enabled] on: once off, it stays
    off along any run; and only the client callback changes it at all. *)
Theorem mvrx_enabled_only_switched_off
    (env : Env) (path : string) (ops : list Op) (o : Op) (w : World) :
  (mvrx_enabled w = false -> mvrx_enabled (run env path ops w) = false) /\
  ((forall data, o <> client_callback data) ->
   mvrx_enabled (step env path w o) = mvrx_enabled w).
Proof.
  split; [apply mvrx_enabled_stays_off | apply mvrx_enabled_kept].
Qed.

Lemma mvrx_enabled_only_switched_off_witness :
  mvrx_enabled
    (run calm "/opt/dmx" [client_leave; client_join peer1; server_enable]
       (final (DMX_MVR_X_Client.callback calm refusal_msg joined_world)))
  = false /\
  mvrx_enabled (step calm "/opt/dmx" joined_world client_leave)
  = mvrx_enabled joined_world.
Proof.
  split.
  - apply (proj1 (mvrx_enabled_only_switched_off calm "/opt/dmx"
                    [client_leave; client_join peer1; server_enable] client_leave
                    (final (DMX_MVR_X_Client.callback calm refusal_msg joined_world)))).
    vm_compute. reflexivity.
  - apply (proj2 (mvrx_enabled_only_switched_off calm "/opt/dmx" [] client_leave
                    joined_world)).
    intros data. discriminate.
Defined.

(** X3: the two singletons do not interfere: no entry point of the client
    changes the server instance, and no entry point of the server changes
    the client instance. *)
Theorem singletons_do_not_interfere
    (env : Env) (path : string) (o : Op) (w : World) :
  (is_client_op o = true ->
   server_instance (step env path w o) = server_instance w) /\
  (is_client_op o = false ->
   client_instance (step env path w o) = client_instance w).
Proof.
  split; [apply client_ops_keep_server | apply server_ops_keep_client].
Qed.

Lemma singletons_do_not_interfere_witness :
  server_instance (step calm "/opt/dmx" joined_world client_leave)
  = server_instance joined_world /\
  client_instance (step calm "/opt/dmx" joined_world server_disable)
  = client_instance joined_world.
Proof.
  split.
  - apply (proj1 (singletons_do_not_interfere calm "/opt/dmx" client_leave
                    joined_world)). reflexivity.
  - apply (proj2 (singletons_do_not_interfere calm "/opt/dmx" server_disable
                    joined_world)). reflexivity.
Defined.


(** X6: the host's handlers are called from the callbacks only: no other
    entry point makes a call to the host. *)
Theorem host_called_only_from_callbacks
    (env : Env) (path : string) (o : Op) (w : World) :
  is_callback o = false ->
  host_calls (trace (step env path w o)) = host_calls (trace w).
Proof. apply host_calls_kept. Qed.

Lemma host_called_only_from_callbacks_witness :
  host_calls (trace (step calm "/opt/dmx" joined_world (client_request_file commit1)))
  = host_calls (trace joined_world).
Proof.
  apply (host_called_only_from_callbacks calm "/opt/dmx"
           (client_request_file commit1) joined_world).
  reflexivity.
Defined.

(** ** The server's [request_file] *)

Lemma server_request_file_frames (env : Env) (path : string) (c : Commit) :
  frames (fun w w' => listener_requests (trace w') = listener_requests (trace w))
    (DMX_MVR_X_Server.request_file env path c).
Proof.
  intros w. destruct (server_instance w) as [i|] eqn:Ei.
  - rewrite (server_request_file_raises env path c w i Ei). reflexivity.
  - open_world w. reflexivity.
Qed.

(** X7: [request_file] of the server never reaches the listener.  Without
    a server instance it returns at once; with one, its guard reads the
    attribute [DMX_MVR_X_Server] that no instance has, and the call ends
    with an attribute error, the world unchanged.  So along any run of the
    module no file request is handed to a listener. *)
Theorem listener_never_asked_for_file
    (env : Env) (path : string) (c : Commit) (ops : list Op) (w : World) :
  (server_instance w = None ->
   DMX_MVR_X_Server.request_file env path c w = (Ret tt, w)) /\
  (server_instance w <> None ->
   DMX_MVR_X_Server.request_file env path c w
   = (Raise (AttributeError "DMX_MVR_X_Server" "DMX_MVR_X_Server"), w)) /\
  listener_requests (trace (run env path ops w)) = listener_requests (trace w).
Proof.
  split; [intros H; open_world w; reflexivity |].
  split.
  - intros H. destruct (server_instance w) as [i|] eqn:Ei; [| congruence].
    apply (server_request_file_raises env path c w i Ei).
  - apply (frames_run env
             (fun w w' => listener_requests (trace w') = listener_requests (trace w)));
      [frame_trace .. |].
    intros o _. destruct o;
      try (cbn [exec]; apply server_request_file_frames);
      frames_exec (fun e : Event => listener_requests [e] = []) frame_trace.
Qed.

Lemma listener_never_asked_for_file_witness :
  DMX_MVR_X_Server.request_file calm "/opt/dmx" commit1 fresh_world
  = (Ret tt, fresh_world) /\
  DMX_MVR_X_Server.request_file calm "/opt/dmx" commit1 joined_world
  = (Raise (AttributeError "DMX_MVR_X_Server" "DMX_MVR_X_Server"), joined_world).
Proof.
  destruct (listener_never_asked_for_file calm "/opt/dmx" commit1 [] fresh_world)
    as (H1 & _).
  destruct (listener_never_asked_for_file calm "/opt/dmx" commit1 [] joined_world)
    as (_ & H2 & _).
  split; [apply H1; reflexivity | apply H2; vm_compute; discriminate].
Defined.

(** ** Transports are replaced, not stopped *)

(** X8: [connect], [request_file], [re_join] and [join] never call [stop]
    on a transport, although a [connect] that succeeds puts a new
    transport into the instance in place of the one it held. *)
Theorem connect_never_stops_a_transport
    (env : Env) (path : string) (c : Commit) (peer : Peer) (w : World) :
  stop_calls (trace (final (DMX_MVR_X_Client.connect env w))) = stop_calls (trace w) /\
  stop_calls (trace (final (DMX_MVR_X_Client.request_file env path c w)))
  = stop_calls (trace w) /\
  stop_calls (trace (final (DMX_MVR_X_Client.re_join env w))) = stop_calls (trace w) /\
  stop_calls (trace (final (DMX_MVR_X_Client.join env peer w))) = stop_calls (trace w) /\
  (forall i p,
     client_instance w = Some i -> selected_client i = Some p ->
     outcome env (steps w)
       (ClientNew (ip_address p) (port p) 0 (application_uuid i)) = None ->
     (client_instance (final (DMX_MVR_X_Client.connect env w)) ≫= client)
     = Some (steps w)).
Proof.
  split; [| split; [| split; [| split]]].
  - apply stop_calls_kept_by_connect.
  - revert w.
    change (frames (fun w w' => stop_calls (trace w') = stop_calls (trace w))
              (DMX_MVR_X_Client.request_file env path c)).
    apply frames_client_request_file with (allowed := fun e => stop_calls [e] = []);
      frame_trace.
  - revert w.
    change (frames (fun w w' => stop_calls (trace w') = stop_calls (trace w))
              (DMX_MVR_X_Client.re_join env)).
    apply frames_client_re_join with (allowed := fun e => stop_calls [e] = []);
      frame_trace.
  - revert w.
    change (frames (fun w w' => stop_calls (trace w') = stop_calls (trace w))
              (DMX_MVR_X_Client.join env peer)).
    apply frames_client_join with (allowed := fun e => stop_calls [e] = []);
      frame_trace.
  - intros i p Hi Hs Ho. rewrite (connect_established env w i p Hi Hs Ho).
    reflexivity.
Qed.

Lemma connect_never_stops_a_transport_witness :
  (client_instance joined_world ≫= client) = Some 0%nat /\
  (client_instance (final (DMX_MVR_X_Client.connect calm joined_world)) ≫= client)
  = Some (steps joined_world).
Proof.
  split; [reflexivity |].
  destruct (connect_never_stops_a_transport calm "/opt/dmx" commit1 peer1
              joined_world) as (_ & _ & _ & _ & H).
  apply (H {| client := Some 0%nat; selected_client := Some peer1;
              application_uuid := "00000000-0000-4000-8000-000000000000" |} peer1);
    reflexivity.
Defined.

(** ** [disable] of the client *)

(** X9: [disable] of the client.  Without an instance it only prints
    "i am gone".  With a transport it calls [stop] on it and nothing else
    on the network: no LEAVE, no new connection.  Without a transport it
    calls nothing.  Whenever it returns, no instance is left. *)
Theorem client_disable_stops_without_leave (env : Env) (w : World) :
  let r := DMX_MVR_X_Client.disable env w in
  (client_instance w = None ->
   r = (Ret tt, set_trace (trace w ++ [EPrint [SStr "i am gone"]]) w)) /\
  (result r = Ret tt -> client_instance (final r) = None) /\
  ((client_instance w ≫= client) = None ->
   result r = Ret tt /\
   network_calls (trace (final r)) = network_calls (trace w)) /\
  (forall t, (client_instance w ≫= client) = Some t ->
   network_calls (trace (final r)) = network_calls (trace w) ++ [ClientCall t stop]).
Proof.
  intros r. subst r. open_world w. client_unfold.
  split; [intros ->; reflexivity |].
  split; [| split].
  - destruct ci as [[[t|] s u]|]; py_cases; intros H; try discriminate H;
      reflexivity.
  - destruct ci as [[[t|] s u]|]; cbn; intros H; try discriminate H; py_go;
      rewrite ?network_calls_app; cbn; rewrite ?app_nil_r; split; reflexivity.
  - intros t. destruct ci as [[[t'|] s u]|]; cbn; intros H; try discriminate H.
    injection H as ->. py_cases; norm_trace; rewrite network_calls_app;
      reflexivity.
Qed.

Lemma client_disable_stops_without_leave_witness :
  let r := DMX_MVR_X_Client.disable calm joined_world in
  client_instance (final r) = None /\
  network_calls (trace (final r))
  = network_calls (trace joined_world) ++ [ClientCall 0 stop] /\
  DMX_MVR_X_Client.disable calm (final r)
  = (Ret tt, set_trace (trace (final r) ++ [EPrint [SStr "i am gone"]]) (final r)).
Proof.
  cbv zeta.
  destruct (client_disable_stops_without_leave calm joined_world)
    as (_ & H2 & _ & H4).
  destruct (client_disable_stops_without_leave calm
              (final (DMX_MVR_X_Client.disable calm joined_world)))
    as (H1 & _).
  split; [apply H2; reflexivity |].
  split; [apply H4; reflexivity |].
  apply H1. reflexivity.
Defined.

(** ** [enable], [get_port] and [disable] of the server *)

(** X10: with a listener that can be constructed and whose methods
    return, [enable] from a world without server instance constructs the
    listener with the station identifier and starts it, [get_port] then
    asks that listener once and returns its port, and [disable] stops
    that same listener and clears the instance. *)
Theorem server_enable_disable_round_trip (env : Env) (path : string) (w : World) :
  listener_total env ->
  server_instance w = None ->
  let w1 := run env path [server_enable] w in
  let w2 := run env path [server_enable; server_disable] w in
  server_instance w1
  = Some {| server := Some (steps w);
            server_application_uuid := station_uuid_read env w |} /\
  DMX_MVR_X_Server.get_port env w1
  = (Ret (Some (listening_port env (steps w))),
     set_trace (trace w1 ++ [ECall (ServerCall (steps w) listener_get_port) None])
       (set_steps (S (steps w1)) w1)) /\
  server_instance w2 = None /\
  network_calls (trace w2)
  = network_calls (trace w)
    ++ [ServerNew (station_uuid_read env w);
        ServerCall (steps w) listener_start;
        ServerCall (steps w) listener_stop].
Proof.
  intros [Hn Hc] Hs w1 w2. subst w1 w2. unfold run, step. cbn [fold_left exec].
  open_world w. unfold station_uuid_read. server_unfold.
  destruct (pf !! "application_uuid") eqn:Ep;
    repeat (py_go; rewrite ?Hn, ?Hc, ?Ep); norm_trace;
    rewrite ?network_calls_app; repeat split; reflexivity.
Qed.

Lemma server_enable_disable_round_trip_witness :
  server_instance (run calm "/opt/dmx" [server_enable; server_disable] fresh_world)
  = None /\
  network_calls
    (trace (run calm "/opt/dmx" [server_enable; server_disable] fresh_world))
  = [ServerNew "00000000-0000-4000-8000-000000000000";
     ServerCall 0 listener_start; ServerCall 0 listener_stop].
Proof.
  destruct (server_enable_disable_round_trip calm "/opt/dmx" fresh_world)
    as (_ & _ & H3 & H4).
  - split; intros; reflexivity.
  - reflexivity.
  - split; [exact H3 | exact H4].
Defined.

(** X11: when the listener cannot be constructed, [enable] prints the
    error and returns normally, but leaves an instance without listener
    behind.  From then on [enable] does nothing, [get_port] ends with an
    attribute error on [None], and [disable] clears the instance without
    any call to the network. *)
Theorem failed_enable_sticks (env : Env) (w : World) (e : Exn) :
  server_instance w = None ->
  outcome env (steps w) (ServerNew (station_uuid_read env w)) = Some e ->
  let w' := final (DMX_MVR_X_Server.enable env w) in
  result (DMX_MVR_X_Server.enable env w) = Ret tt /\
  server_instance w'
  = Some {| server := None;
            server_application_uuid := station_uuid_read env w |} /\
  DMX_MVR_X_Server.enable env w' = (Ret tt, w') /\
  DMX_MVR_X_Server.get_port env w'
  = (Raise (AttributeError "NoneType" "get_port"), w') /\
  DMX_MVR_X_Server.disable env w'
  = (Ret tt, set_trace (trace w' ++ [ELogInfo "Disabling MVR"])
               (set_server_instance None w')) /\
  trace w'
  = trace w ++ [ECall (ServerNew (station_uuid_read env w)) (Some e);
                EPrint [SStr "Cannot connect to host"; SExn e]].
Proof.
  intros Hs Ho w'. subst w'. open_world w.
  unfold station_uuid_read in *. cbn [prefs draws] in Ho. server_unfold.
  destruct (pf !! "application_uuid") eqn:Ep;
    repeat (py_go; rewrite ?Ho, ?Ep); norm_trace; repeat split; reflexivity.
Qed.

Lemma failed_enable_sticks_witness :
  let w' := final (DMX_MVR_X_Server.enable unreachable fresh_world) in
  DMX_MVR_X_Server.enable unreachable w' = (Ret tt, w') /\
  DMX_MVR_X_Server.get_port unreachable w'
  = (Raise (AttributeError "NoneType" "get_port"), w').
Proof.
  cbv zeta.
  destruct (failed_enable_sticks unreachable fresh_world (External "OSError"))
    as (_ & _ & H3 & H4 & _).
  - reflexivity.
  - reflexivity.
  - split; [exact H3 | exact H4].
Defined.

(** ** [re_join] *)

Lemma re_join_returns (env : Env) (w : World) :
  result (DMX_MVR_X_Client.re_join env w) = Ret tt.
Proof.
  open_world w. client_unfold.
  destruct ci as [[[t|] [p|] u]|]; py_cases; reflexivity.
Qed.

Lemma re_join_keeps_identity (env : Env) (w : World) :
  let w' := final (DMX_MVR_X_Client.re_join env w) in
  (application_uuid <$> client_instance w') = (application_uuid <$> client_instance w) /\
  (selected_client <$> client_instance w') = (selected_client <$> client_instance w) /\
  draws w' = draws w.
Proof.
  open_world w. client_unfold.
  destruct ci as [[[t|] [p|] u]|]; py_cases; repeat split; reflexivity.
Qed.

Lemma re_join_sends_join (env : Env) (w : World) :
  transport_total env ->
  (client_instance w ≫= client) <> None ->
  exists pre t,
    trace (final (DMX_MVR_X_Client.re_join env w))
    = trace w ++ pre ++ [ECall (ClientCall t join_mvr) None] /\
    (client_instance (final (DMX_MVR_X_Client.re_join env w)) ≫= client) = Some t.
Proof.
  intros Ht H. open_world w. client_unfold.
  destruct ci as [[[t|] [p|] u]|]; cbn in H; try congruence; clear H.
  - py_go. destruct (outcome env st (ClientNew _ _ _ _)) eqn:E1;
      repeat (py_go; rewrite ?Ht); norm_trace.
    + eexists [_;_;_], t. split; reflexivity.
    + eexists [_;_;_;_], st. split; reflexivity.
  - repeat (py_go; rewrite ?Ht). norm_trace. eexists [_], t. split; reflexivity.
Qed.

(** X12: [re_join] never raises.  Without an instance or without a
    transport it does nothing.  Otherwise it keeps the instance, with its
    identifier and its selected peer, draws no identifier, and first
    connects again to the selected peer.  If the new transport is
    constructed and started, it takes the place of the one held and the
    join is sent on it; if the constructor raises, or no peer is selected,
    the error is printed and the join is sent on the transport held.  A
    failure of [start] or of [join_mvr] is printed as
    "problem re_joining". *)
Theorem re_join_keeps_the_instance (env : Env) (w : World) :
  let r := DMX_MVR_X_Client.re_join env w in
  result r = Ret tt /\
  ((client_instance w ≫= client) = None -> r = (Ret tt, w)) /\
  (application_uuid <$> client_instance (final r))
  = (application_uuid <$> client_instance w) /\
  (selected_client <$> client_instance (final r))
  = (selected_client <$> client_instance w) /\
  draws (final r) = draws w /\
  (forall i t p,
     client_instance w = Some i -> client i = Some t ->
     selected_client i = Some p ->
     outcome env (steps w)
       (ClientNew (ip_address p) (port p) 0 (application_uuid i)) = None ->
     outcome env (S (steps w)) (ClientCall (steps w) start) = None ->
     r = (Ret tt,
          set_client_instance (Some (with_transport (steps w) i))
            (advanced 3
               (reconnect_events p (application_uuid i) (steps w)
                ++ rejoin_events (steps w)
                     (outcome env (S (S (steps w)))
                        (ClientCall (steps w) join_mvr)))
               w))) /\
  (forall i t p e,
     client_instance w = Some i -> client i = Some t ->
     selected_client i = Some p ->
     outcome env (steps w)
       (ClientNew (ip_address p) (port p) 0 (application_uuid i)) = Some e ->
     r = (Ret tt,
          advanced 2
            (refused_events p (application_uuid i) e
             ++ rejoin_events t
                  (outcome env (S (steps w)) (ClientCall t join_mvr)))
            w)) /\
  (forall i t p e,
     client_instance w = Some i -> client i = Some t ->
     selected_client i = Some p ->
     outcome env (steps w)
       (ClientNew (ip_address p) (port p) 0 (application_uuid i)) = None ->
     outcome env (S (steps w)) (ClientCall (steps w) start) = Some e ->
     r = (Ret tt,
          set_client_instance (Some (with_transport (steps w) i))
            (advanced 2
               (attempt_events p (application_uuid i) None
                ++ [ECall (ClientCall (steps w) start) (Some e);
                    EPrint [SStr "problem re_joining"; SExn e]])
               w))) /\
  (forall i t,
     client_instance w = Some i -> client i = Some t ->
     selected_client i = None ->
     r = (Ret tt,
          advanced 1
            (no_peer_events
             ++ rejoin_events t (outcome env (steps w) (ClientCall t join_mvr)))
            w)).
Proof.
  intros r. subst r. split; [apply re_join_returns |].
  split.
  { intros H. open_world w. client_unfold.
    destruct ci as [[[t|] s u]|]; cbn in H; try discriminate; reflexivity. }
  destruct (re_join_keeps_identity env w) as (H1 & H2 & H3).
  split; [exact H1 |]. split; [exact H2 |]. split; [exact H3 |].
  split; [intros i t p; apply re_join_reconnected |].
  split; [intros i t p e; apply re_join_refused |].
  split; [intros i t p e; apply re_join_start_fails |].
  intros i t. apply re_join_no_peer.
Qed.

Lemma re_join_keeps_the_instance_witness :
  DMX_MVR_X_Client.re_join unreachable stranded_world = (Ret tt, stranded_world) /\
  DMX_MVR_X_Client.re_join calm joined_world
  = (Ret tt,
     set_client_instance
       (Some {| client := Some 5%nat; selected_client := Some peer1;
                application_uuid := "00000000-0000-4000-8000-000000000000" |})
       (advanced 3
          (reconnect_events peer1 "00000000-0000-4000-8000-000000000000" 5
           ++ rejoin_events 5 None)
          joined_world)).
Proof.
  destruct (re_join_keeps_the_instance unreachable stranded_world)
    as (_ & H2 & _).
  destruct (re_join_keeps_the_instance calm joined_world)
    as (_ & _ & _ & _ & _ & H6 & _).
  split; [apply H2; reflexivity |].
  exact (H6 {| client := Some 0%nat; selected_client := Some peer1;
               application_uuid := "00000000-0000-4000-8000-000000000000" |}
            0%nat peer1 eq_refl eq_refl eq_refl eq_refl eq_refl).
Defined.

(** ** Callbacks that arrive when no instance exists *)

(** X13: a message that names its station and arrives while no instance
    exists.  If it carries one of the handled fields, the callback ends
    with an attribute error on [None] before any handler runs (the client
    world is unchanged, the server has printed its line).  If it carries
    none, the client callback still handles a refused join and the server
    callback just returns. *)
Theorem callback_without_instance
    (env : Env) (data : Message) (conn : ConnData) (uuid : PyVal) (w : World) :
  data !! "StationUUID" = Some uuid ->
  (client_instance w = None ->
   (fields_present data = 0%nat ->
    DMX_MVR_X_Client.callback env data w
    = (Ret tt, if is_join_refusal data then after_refusal w else w)) /\
   (fields_present data <> 0%nat ->
    DMX_MVR_X_Client.callback env data w
    = (Raise (AttributeError "NoneType" "_dmx"), w)))
  /\
  (server_instance w = None ->
   let w1 :=
     set_trace
       (trace w ++ [EPrint [SStr "callback"; SVal (VDict data); SConn conn]]) w in
   (fields_present data = 0%nat ->
    DMX_MVR_X_Server.callback env data conn w = (Ret tt, w1)) /\
   (fields_present data <> 0%nat ->
    DMX_MVR_X_Server.callback env data conn w
    = (Raise (AttributeError "NoneType" "_dmx"), w1))).
Proof.
  intros Hu. split; intros Hi.
  - open_world w. subst.
    unfold DMX_MVR_X_Client.callback, fields_present, handled_fields,
      after_refusal, DMX_MVR_X_Client.client_host, DMX_MVR_X_Client.client_attr,
      subscript.
    rewrite (has_key_Some _ _ _ Hu), Hu. unfold has_key. cbn [List.filter].
    destruct (data !! "Commits"), (data !! "FileUUID"), (data !! "Provider"),
      (data !! "file_downloaded"), (is_join_refusal data) eqn:Er;
      unfold is_join_refusal in Er;
      (split; intros H; cbn in H; try congruence; try lia);
      repeat (py_go; rewrite ?Er); reflexivity.
  - open_world w. subst. destruct conn as [[a p]].
    unfold DMX_MVR_X_Server.callback, fields_present, handled_fields,
      DMX_MVR_X_Server.server_host, DMX_MVR_X_Server.server_attr, subscript.
    cbn [addr]. rewrite (has_key_Some _ _ _ Hu), Hu. unfold has_key.
    cbn [List.filter].
    destruct (data !! "Commits"), (data !! "FileUUID"), (data !! "Provider"),
      (data !! "StationName"), (data !! "file_downloaded");
      (split; intros H; cbn in H; try congruence; try lia);
      py_go; reflexivity.
Qed.

Lemma callback_without_instance_witness :
  DMX_MVR_X_Client.callback calm refusal_msg fresh_world
  = (Ret tt, after_refusal fresh_world) /\
  DMX_MVR_X_Client.callback calm welcome_msg fresh_world
  = (Raise (AttributeError "NoneType" "_dmx"), fresh_world).
Proof.
  destruct (callback_without_instance calm refusal_msg conn1 (VStr "A1") fresh_world)
    as (H1 & _); [vm_compute; reflexivity |].
  destruct (callback_without_instance calm welcome_msg conn1 (VStr "A1") fresh_world)
    as (H2 & _); [vm_compute; reflexivity |].
  split.
  - apply (proj1 (H1 eq_refl)). vm_compute. reflexivity.
  - apply (proj2 (H2 eq_refl)). vm_compute. discriminate.
Defined.

(** ** [join] towards a peer that answers *)

(** X14: [join] towards a peer whose transport can be constructed (with
    transport methods that return) replaces the instance by a fresh one
    that holds the selected peer and the new transport, starts the
    transport, sends the join on it and logs "Joining" at once, before
    any acknowledgement. *)
Theorem join_reachable_connects_and_joins (env : Env) (peer : Peer) (w : World) :
  outcome env (steps w)
    (ClientNew (ip_address peer) (port peer) 0 (station_uuid_read env w)) = None ->
  transport_total env ->
  DMX_MVR_X_Client.join env peer w =
    (Ret tt,
     set_client_instance
       (Some {| client := Some (steps w); selected_client := Some peer;
                application_uuid := station_uuid_read env w |})
       (set_trace
          (trace w ++ attempt_events peer (station_uuid_read env w) None
           ++ [ECall (ClientCall (steps w) start) None;
               EPrint [SStr "thread started"];
               ECall (ClientCall (steps w) join_mvr) None;
               ELogInfo "Joining"])
          (set_steps (S (S (S (steps w)))) (set_draws (S (draws w)) w)))).
Proof.
  intros Ho Ht. open_world w. unfold station_uuid_read in *.
  cbn [prefs draws] in Ho. client_unfold.
  destruct (pf !! "application_uuid") eqn:Ep;
    repeat (py_go; rewrite ?Ho, ?Ht, ?Ep); norm_trace; reflexivity.
Qed.

Lemma join_reachable_connects_and_joins_witness :
  result (DMX_MVR_X_Client.join calm peer1 joined_world) = Ret tt /\
  (client_instance (final (DMX_MVR_X_Client.join calm peer1 joined_world)) ≫= client)
  = Some (steps joined_world).
Proof.
  rewrite (join_reachable_connects_and_joins calm peer1 joined_world).
  - split; reflexivity.
  - reflexivity.
  - intros n t m. reflexivity.
Defined.

(** ** A commit identifier that is an absolute path *)

(** X15: a [commit_uuid] that begins with a path separator takes the
    local path out of the add-on directory: the path is the identifier
    itself with [.mvr] appended. *)
Theorem absolute_commit_uuid_leaves_the_addon (path : string) (c : Commit) :
  starts_with_sep (commit_uuid c) = true ->
  DMX_MVR_X_Client.request_path path c = commit_uuid c +:+ ".mvr" /\
  DMX_MVR_X_Server.request_path path c = commit_uuid c +:+ ".mvr".
Proof.
  intros H.
  assert (starts_with_sep (commit_uuid c +:+ ".mvr") = true) as Hs.
  { destruct (commit_uuid c) as [|x u]; [discriminate H |].
    rewrite string_app_cons. exact H. }
  unfold DMX_MVR_X_Client.request_path, DMX_MVR_X_Server.request_path,
    os_path_join. cbn [fold_left].
  unfold join_step at 1 4. rewrite Hs. split; reflexivity.
Qed.

Lemma absolute_commit_uuid_leaves_the_addon_witness :
  DMX_MVR_X_Client.request_path "/opt/dmx"
    {| commit_uuid := "/tmp/x"; file_uuid := ""; station_uuid := "";
       timestamp := 0; comment := "" |}
  = "/tmp/x.mvr".
Proof.
  apply (absolute_commit_uuid_leaves_the_addon "/opt/dmx"
           {| commit_uuid := "/tmp/x"; file_uuid := ""; station_uuid := "";
              timestamp := 0; comment := "" |}).
  reflexivity.
Defined.
